(** * The Ansible command-line stub [lib/ansible/cli/scripts/ansible_cli_stub.py]

    A shallow embedding of the [__main__] block of the stub: the alias
    derived from the invocation basename, the loader of the sub-command
    class, the creation of [~/.ansible], the re-encoding of the argument
    vector, and the translation of exceptions into exit codes.

    Conventions.
    - A Python [str] is a [string]; its characters are the code points
      U+0000..U+00FF.
    - A Python exception is a value of [exn]; a computation that may raise
      is a [result], and one that also reads or writes the process state
      (the global [context.CLIARGS], the file system, what was sent to the
      display) is an [M].
    - Everything the stub imports from elsewhere (the configuration, the
      sub-command classes, [to_text], the import machinery) is a field of
      the record [World].
    - The methods of the display and [print_help] return normally; a call
      is recorded as an [event], with the arguments the stub passes
      ([None] for a keyword it leaves out). *)

From Stdlib Require Import ZArith Lia Ascii String.
From stdpp Require Import base option list strings gmap.

Local Open Scope string_scope.
Local Open Scope Z_scope.

(** ** Exceptions *)

(** The exception classes the stub can meet.  [AnsibleError] stands for an
    instance of [AnsibleError] that is neither an [AnsibleOptionsError] nor
    an [AnsibleParserError] (both are subclasses of it in [ansible.errors]);
    [OSError] carries its [errno] and its text; [SystemExit] carries an
    exit status or a message; [ImportError] is an [ImportError] whose
    [msg] is a string, and [BareImportError] one raised without a message,
    whose [msg] is [None]; [OtherException] is any other subclass of
    [Exception], with its optional [orig_exc] attribute given as (text of
    its type, text of its message). *)
Inductive exn : Type :=
| AnsibleOptionsError (msg : string)
| AnsibleParserError (msg : string)
| AnsibleError (msg : string)
| KeyboardInterrupt
| SystemExit (arg : Z + string)
| UnicodeError (msg : string)
| ImportError (msg : string)
| BareImportError
| SyntaxError (msg : string)
| OSError (errno : Z) (text : string)
| IndexError (msg : string)
| AttributeError (msg : string)
| OtherException (msg : string) (orig_exc : option (string * string)).

(** [isinstance(e, AnsibleOptionsError)]. *)
Definition is_AnsibleOptionsError (e : exn) : bool :=
  match e with AnsibleOptionsError _ => true | _ => false end.

(** [isinstance(e, AnsibleParserError)]. *)
Definition is_AnsibleParserError (e : exn) : bool :=
  match e with AnsibleParserError _ => true | _ => false end.

(** [isinstance(e, AnsibleError)]. *)
Definition is_AnsibleError (e : exn) : bool :=
  match e with
  | AnsibleOptionsError _ | AnsibleParserError _ | AnsibleError _ => true
  | _ => false
  end.

(** [isinstance(e, KeyboardInterrupt)]. *)
Definition is_KeyboardInterrupt (e : exn) : bool :=
  match e with KeyboardInterrupt => true | _ => false end.

(** [isinstance(e, Exception)]: everything but [KeyboardInterrupt] and
    [SystemExit], which derive from [BaseException] directly. *)
Definition is_Exception (e : exn) : bool :=
  match e with KeyboardInterrupt | SystemExit _ => false | _ => true end.

(** [to_text(e)]: the message of the exception. *)
Definition exn_text (e : exn) : string :=
  match e with
  | AnsibleOptionsError m | AnsibleParserError m | AnsibleError m
  | UnicodeError m | ImportError m | IndexError m | AttributeError m
  | SyntaxError m | OtherException m _ => m
  | BareImportError => ""
  | KeyboardInterrupt => ""
  | SystemExit _ => ""
  | OSError _ m => m
  end.

(** [getattr(e, 'orig_exc')] when [hasattr(e, 'orig_exc')]. *)
Definition exn_orig_exc (e : exn) : option (string * string) :=
  match e with OtherException _ o => o | _ => None end.

(** A failure of no recognised kind: an [Exception] that is not an
    [AnsibleError]; it is what reaches the last [except] clause. *)
Definition unclassified (e : exn) : bool :=
  is_Exception e && negb (is_AnsibleError e).

(** A value or a raised exception. *)
Inductive result (A : Type) : Type :=
| Ok (a : A)
| Raise (e : exn).
Arguments Ok {A} a.
Arguments Raise {A} e.

#[global] Instance result_ret : MRet result := fun _ a => Ok a.
#[global] Instance result_fmap : FMap result := fun _ _ f r =>
  match r with Ok a => Ok (f a) | Raise e => Raise e end.
#[global] Instance result_bind : MBind result := fun _ _ f r =>
  match r with Ok a => f a | Raise e => Raise e end.

(** ** The Python built-ins the stub calls *)

Module Py.

(** [c.isdigit()] on the code points below 256: the decimal digits and the
    superscripts two, three and one (U+00B2, U+00B3, U+00B9). *)
Definition isdigit (c : ascii) : bool :=
  let n := N_of_ascii c in
  ((48 <=? n) && (n <=? 57) || (n =? 178) || (n =? 179) || (n =? 185))%N.

(** Case mapping on the code points below 256: the letters A-Z and a-z,
    and the Latin-1 letters U+00C0-U+00DE and U+00E0-U+00FE (the signs
    U+00D7 and U+00F7 between them are not letters).  The three letters
    whose upper case lies outside this range or is two characters (U+00B5,
    U+00DF, U+00FF) are kept as they are. *)
Definition upper_char (c : ascii) : ascii :=
  let n := N_of_ascii c in
  if ((97 <=? n) && (n <=? 122)
      || (224 <=? n) && (n <=? 254) && negb (n =? 247))%N
  then ascii_of_N (n - 32) else c.

Definition lower_char (c : ascii) : ascii :=
  let n := N_of_ascii c in
  if ((65 <=? n) && (n <=? 90)
      || (192 <=? n) && (n <=? 222) && negb (n =? 215))%N
  then ascii_of_N (n + 32) else c.

Fixpoint lower (s : string) : string :=
  match s with
  | EmptyString => EmptyString
  | String c r => String (lower_char c) (lower r)
  end.

(** [s.capitalize()]: first character upper-cased, the others lower-cased
    (exact but for a first character U+00B5, U+00DF or U+00FF, see
    [upper_char]). *)
Definition capitalize (s : string) : string :=
  match s with
  | EmptyString => EmptyString
  | String c r => String (upper_char c) (lower r)
  end.

(** [c in s]. *)
Fixpoint contains (c : ascii) (s : string) : bool :=
  match s with
  | EmptyString => false
  | String d r => Ascii.eqb d c || contains c r
  end.

(** [s.split(sep)] for a one-character separator: never empty, and empty
    tokens are kept. *)
Fixpoint split (sep : ascii) (s : string) : list string :=
  match s with
  | EmptyString => [EmptyString]
  | String c r =>
      if Ascii.eqb c sep then EmptyString :: split sep r
      else match split sep r with
           | t :: ts => String c t :: ts
           | [] => [String c EmptyString]
           end
  end.

(** [s.endswith(suffix)]. *)
Definition endswith (s suffix : string) : bool :=
  let n := String.length s in
  let k := String.length suffix in
  (k <=? n)%nat && String.eqb (String.substring (n - k) k s) suffix.

(** [os.path.basename(p)]: what follows the last slash. *)
Fixpoint basename (p : string) : string :=
  match p with
  | EmptyString => EmptyString
  | String c r =>
      if contains "/" r then basename r
      else if Ascii.eqb c "/" then r else p
  end.

(** The position an index [i] denotes in a sequence of length [n]:
    negative indexes count from the end; [None] when out of range. *)
Definition index_of (n : nat) (i : Z) : option nat :=
  let j := if i <? 0 then i + Z.of_nat n else i in
  if (j <? 0) || (Z.of_nat n <=? j) then None else Some (Z.to_nat j).

(** [l[i]] on a list. *)
Definition list_getitem {A} (l : list A) (i : Z) : result A :=
  match index_of (length l) i ≫= (l !!.) with
  | Some x => Ok x
  | None => Raise (IndexError "list index out of range")
  end.

(** [s[i]] on a string. *)
Definition str_getitem (s : string) (i : Z) : result ascii :=
  match index_of (String.length s) i ≫= (fun k => String.get k s) with
  | Some c => Ok c
  | None => Raise (IndexError "string index out of range")
  end.

(** [l[:j]]. *)
Definition slice_to {A} (l : list A) (j : Z) : list A :=
  let k := if j <? 0 then Z.max 0 (j + Z.of_nat (length l)) else j in
  take (Z.to_nat k) l.

(** [''.join(s.splitlines())]: the string without its line boundaries. *)
Definition is_linebreak (c : ascii) : bool :=
  let n := N_of_ascii c in
  ((10 <=? n) && (n <=? 13) || (28 <=? n) && (n <=? 30) || (n =? 133))%N.

Fixpoint join_splitlines (s : string) : string :=
  match s with
  | EmptyString => EmptyString
  | String c r =>
      if is_linebreak c then join_splitlines r
      else String c (join_splitlines r)
  end.

(** What the import machinery of Python 3 raises when the module [name]
    is the one it does not find (the stub is written with f-strings, so no
    older interpreter runs it): a [ModuleNotFoundError], which is an
    [ImportError], whose message quotes the dotted name.  [name] is the
    missing module itself (for a dotted alias that may be a parent of the
    module asked for) and holds no quote, backslash or control character,
    so that its [repr] is the name between single quotes. *)
Definition module_not_found (name : string) : exn :=
  ImportError ("No module named '" +:+ name +:+ "'").

End Py.

(** ** Alias resolution (lines 84-98) *)

(** The suite's primary program name and the alias it stands for. *)
Definition primary_name : string := "ansible".
Definition default_alias : string := "adhoc".

(** [target = me.split('-')], then the last token is dropped once when its
    first character is a digit. *)
Definition alias_target (me : string) : result (list string) :=
  let target := Py.split "-" me in
  last ← Py.list_getitem target (-1);
  c ← Py.str_getitem last 0;
  mret (if Py.isdigit c then Py.slice_to target (-1) else target).

(** The pair ([sub], [myclass]) the stub computes from the basename [me],
    or the exception the computation raises. *)
Definition resolve_alias (me : string) : result (string * string) :=
  target ← alias_target me;
  if (1 <? length target)%nat then
    sub ← Py.list_getitem target 1;
    mret (sub, Py.capitalize sub +:+ "CLI")
  else
    t0 ← Py.list_getitem target 0;
    if String.eqb t0 primary_name then mret (default_alias, "AdHocCLI")
    else Raise (AnsibleError ("Unknown Ansible alias: " +:+ me)).

(** The alias alone. *)
Definition alias_of (me : string) : result string :=
  fst <$> resolve_alias me.

(** ** The collaborators of the stub *)

(** [ansible.constants], as far as the stub reads it. *)
Record Config : Type := {
  DEFAULT_DEBUG : bool;
  CONTROLLER_PYTHON_WARNING : bool
}.

(** Modelled from the spec: the parsed run options that [ansible.context]
    holds (the module is outside the stub), "read-only parsed run options
    including [verbosity: int]". *)
Record RunOptions : Type := { verbosity : Z }.

(** The global [context.CLIARGS]: the empty mapping until a sub-command has
    parsed its options ([None]), the parsed options afterwards. *)
Definition CLIArgs : Type := option RunOptions.

(** [bool(context.CLIARGS)]. *)
Definition cliargs_bool (c : CLIArgs) : bool :=
  match c with Some _ => true | None => false end.

(** [context.CLIARGS['verbosity']]; a [KeyError] on the empty mapping. *)
Definition cliargs_verbosity (c : CLIArgs) : result Z :=
  match c with
  | Some o => Ok (verbosity o)
  | None => Raise (OtherException "'verbosity'" None)
  end.

(** An instance of a sub-command class: what [run()] returns or raises and
    what it leaves in [context.CLIARGS], and whether [cli.parser] is set
    once [run()] is over. *)
Record CLIObject : Type := {
  cli_run : CLIArgs -> result Z * CLIArgs;
  cli_has_parser : bool
}.

(** A sub-command class: its constructor, applied to the argument vector. *)
Definition CLIClass : Type := list string -> result CLIObject.

(** An imported module: its attributes that are sub-command classes. *)
Definition PyModule : Type := string -> option CLIClass.

(** What was sent to the display, to the parser and to the sub-command, in
    the order it happened. *)
Inductive event : Type :=
| LastResort_error (msg : string)
| Display_deprecated (msg version collection_name : string)
| Display_debug (msg : string)
| Display_warning (msg : string)
| Display_error (msg : string) (wrap_text : option bool)
| Display_display (msg : string) (log_only : option bool)
| Display_vvv (msg : string)
| Parser_print_help
| Cli_construct (myclass : string) (args : list string)
| Cli_run.

(** The events by which the sub-command implementation is entered. *)
Definition invokes (ev : event) : bool :=
  match ev with Cli_construct _ _ | Cli_run => true | _ => false end.

(** The events that show a warning. *)
Definition warns (ev : event) : bool :=
  match ev with Display_warning _ => true | _ => false end.

(** The interpreter, the process and the modules around the stub. *)
Record World : Type := {
  sys_version_info : Z * Z;
  sys_version : string;
  sys_argv0 : string;
  sys_argv_rest : list string;
  (** [import ansible.constants as C] and the import of the display. *)
  import_constants : result Config;
  initialize_locale : result unit;
  (** [__import__(name, fromlist=...)]. *)
  import_module : string -> list string -> result PyModule;
  (** [os.path.expanduser(os.path.expandvars(b"~/.ansible"))]. *)
  b_ansible_dir : string;
  (** The reason, other than its existence, for which a directory cannot
      be created: [errno] and message. *)
  mkdir_error : string -> option (Z * string);
  (** [to_text(a, errors='surrogate_or_strict')]; [None] when it raises
      [UnicodeError]. *)
  to_text_strict : string -> option string;
  (** [to_text(b, errors='surrogate_or_replace')]. *)
  to_text_replace : string -> string;
  (** [traceback.format_exc()] while the exception is handled. *)
  format_exc : exn -> string
}.

Definition sys_argv (w : World) : list string :=
  sys_argv0 w :: sys_argv_rest w.

(** ** The state of the process *)

Record state : Type := {
  CLIARGS : CLIArgs;            (* context.CLIARGS *)
  dirs : gset string;           (* the directories that exist *)
  out : list event;             (* what has been emitted so far *)
  cli : option CLIObject        (* the variable [cli] of line 73 *)
}.

Definition set_CLIARGS (c : CLIArgs) (s : state) : state :=
  {| CLIARGS := c; dirs := dirs s; out := out s; cli := cli s |}.
Definition set_dirs (d : gset string) (s : state) : state :=
  {| CLIARGS := CLIARGS s; dirs := d; out := out s; cli := cli s |}.
Definition set_out (o : list event) (s : state) : state :=
  {| CLIARGS := CLIARGS s; dirs := dirs s; out := o; cli := cli s |}.
Definition set_cli (c : option CLIObject) (s : state) : state :=
  {| CLIARGS := CLIARGS s; dirs := dirs s; out := out s; cli := c |}.

(** A computation on the state that returns or raises; the state survives
    a raise. *)
Definition M (A : Type) : Type := state -> result A * state.

#[global] Instance M_ret : MRet M := fun _ a s => (Ok a, s).
#[global] Instance M_bind : MBind M := fun _ _ f m s =>
  match m s with
  | (Ok a, s') => f a s'
  | (Raise e, s') => (Raise e, s')
  end.

Definition raise {A} (e : exn) : M A := fun s => (Raise e, s).
Definition lift {A} (r : result A) : M A := fun s => (r, s).
Definition emit (ev : event) : M unit :=
  fun s => (Ok tt, set_out (out s ++ [ev]) s).
Definition skip : M unit := mret tt.
Definition get_CLIARGS : M CLIArgs := fun s => (Ok (CLIARGS s), s).
Definition get_cli : M (option CLIObject) := fun s => (Ok (cli s), s).
Definition assign_cli (c : CLIObject) : M unit :=
  fun s => (Ok tt, set_cli (Some c) s).

(** [try: m  except ...: handler]; a handler re-raises what it does not
    catch. *)
Definition try_except {A} (m : M A) (handler : exn -> M A) : M A := fun s =>
  match m s with
  | (Ok a, s') => (Ok a, s')
  | (Raise e, s') => handler e s'
  end.

(** [try: m  except ...: handler  else: orelse]; the handler does not
    cover [orelse]. *)
Definition try_except_else {A B} (m : M A) (handler : exn -> M B)
    (orelse : A -> M B) : M B := fun s =>
  match m s with
  | (Ok a, s') => orelse a s'
  | (Raise e, s') => handler e s'
  end.

(** [[f(a) for a in l]]. *)
Fixpoint for_each {A B} (f : A -> M B) (l : list A) : M (list B) :=
  match l with
  | [] => mret []
  | a :: r => b ← f a; bs ← for_each f r; mret (b :: bs)
  end.

(** The line feed of the messages. *)
Definition nl : string := String (ascii_of_nat 10) EmptyString.

(** ** The module level (lines 37-46) *)

(** [a >= b] on pairs, as Python compares tuples. *)
Definition pair_geb (a b : Z * Z) : bool :=
  (fst b <? fst a) || ((fst a =? fst b) && (snd b <=? snd a)).

Definition _PY38_MIN (w : World) : bool := pair_geb (sys_version_info w) (3, 8).
Definition _PY3_MIN (w : World) : bool := pair_geb (sys_version_info w) (3, 5).
(** [(2, 6) <= v < (3,)]: a pair is below the one-element tuple [(3,)]
    when its first component is below 3. *)
Definition _PY2_MIN (w : World) : bool :=
  pair_geb (sys_version_info w) (2, 6) && (fst (sys_version_info w) <? 3).
Definition _PY_MIN (w : World) : bool := _PY3_MIN w || _PY2_MIN w.

Definition version_line (w : World) : string :=
  Py.join_splitlines (sys_version w).

(** Lines 43-46, once the file is compiled: the interpreter is refused
    below the documented minimum. *)
Definition check_python (w : World) : result unit :=
  if negb (_PY_MIN w) then
    Raise (SystemExit (inr
      ("ERROR: Ansible requires a minimum of Python2 version 2.6 or Python3 version 3.5. Current version: "
       +:+ version_line w)))
  else Ok tt.

(** ** The implementation loader (lines 100-108) *)

(** [getattr(module, name)]. *)
Definition getattr_class (name : string) (m : PyModule) (attr : string)
  : result CLIClass :=
  match m attr with
  | Some c => Ok c
  | None => Raise (AttributeError
      ("module '" +:+ name +:+ "' has no attribute '" +:+ attr +:+ "'"))
  end.

Definition load (w : World) (me sub myclass : string) : M CLIClass :=
  try_except
    (m ← lift (import_module w ("ansible.cli." +:+ sub) [myclass]);
     lift (getattr_class ("ansible.cli." +:+ sub) m myclass))
    (fun e =>
       match e with
       | ImportError msg =>
           if Py.endswith msg (" " +:+ sub) then
             raise (AnsibleError ("Ansible sub-program not implemented: " +:+ me))
           else raise e
       | BareImportError =>
           (* [msg] is [None]: [msg.endswith] fails inside the handler *)
           raise (AttributeError "'NoneType' object has no attribute 'endswith'")
       | _ => raise e
       end).

(** ** The state directory (lines 110-119) *)

Definition EEXIST : Z := 17.

(** [os.mkdir(path, mode)]: fails with [EEXIST] when the directory is
    there, with the error of the world when it cannot be created, and
    creates it otherwise. *)
Definition os_mkdir (w : World) (path : string) (mode : Z) : M unit := fun s =>
  if decide (path ∈ dirs s) then (Raise (OSError EEXIST "File exists"), s)
  else match mkdir_error w path with
       | Some (errno, strerror) => (Raise (OSError errno strerror), s)
       | None => (Ok tt, set_dirs ({[path]} ∪ dirs s) s)
       end.

Definition ensure_state_directory (w : World) (path : string) : M unit :=
  try_except_else
    (os_mkdir w path 448)
    (fun exc =>
       match exc with
       | OSError errno _ =>
           if negb (errno =? EEXIST) then
             emit (Display_warning
                     ("Failed to create the directory '" +:+ to_text_replace w path
                      +:+ "': " +:+ exn_text exc))
           else skip
       | _ => raise exc
       end)
    (fun _ =>
       emit (Display_debug
               ("Created the '" +:+ to_text_replace w path +:+ "' directory"))).

(** ** Arguments and invocation (lines 121-129) *)

Definition decode_arg (w : World) (a : string) : M string :=
  match to_text_strict w a with
  | Some t => mret t
  | None => raise (UnicodeError "'utf-8' codec can't decode")
  end.

Definition construct (myclass : string) (mycli : CLIClass) (args : list string)
  : M CLIObject :=
  emit (Cli_construct myclass args);; lift (mycli args).

Definition call_run (c : CLIObject) : M Z :=
  fun s => let '(r, a) := cli_run c (CLIARGS s) in (r, set_CLIARGS a s).

Definition run (c : CLIObject) : M Z :=
  emit Cli_run;; call_run c.

Definition encode_and_run (w : World) (myclass : string) (mycli : CLIClass)
  : M Z :=
  try_except_else
    (for_each (decode_arg w) (sys_argv w))
    (fun e =>
       match e with
       | UnicodeError _ =>
           emit (Display_error
                   "Command line args are not in utf-8, unable to continue.  Ansible currently only understands utf-8"
                   None);;
           emit (Display_display
                   ("The full traceback was:" +:+ nl +:+ nl +:+ format_exc w e)
                   None);;
           mret 6
       | _ => raise e
       end)
    (fun args =>
       c ← construct myclass mycli args;
       assign_cli c;;
       run c).

(** ** The supervised block (lines 74-129) *)

Definition body (w : World) (C : Config) (me : string) : M Z :=
  (if CONTROLLER_PYTHON_WARNING C && negb (_PY38_MIN w) then
     emit (Display_deprecated
             ("Ansible will require Python 3.8 or newer on the controller starting with Ansible 2.12. Current version: "
              +:+ version_line w)
             "2.12" "ansible.builtin")
   else skip);;
  emit (Display_debug "starting run");;
  '(sub, myclass) ← lift (resolve_alias me);
  mycli ← load w me sub myclass;
  ensure_state_directory w (b_ansible_dir w);;
  encode_and_run w myclass mycli.

(** ** The translation of failures (lines 131-165) *)

(** [cli.parser.print_help()], [cli] being possibly [None]. *)
Definition print_help : M unit :=
  c ← get_cli;
  match c with
  | None => raise (AttributeError "'NoneType' object has no attribute 'parser'")
  | Some c =>
      if cli_has_parser c then emit Parser_print_help
      else raise (AttributeError "'NoneType' object has no attribute 'print_help'")
  end.

(** The last clause, [except Exception as e]. *)
Definition unexpected (w : World) (C : Config) (e : exn) : M Z :=
  if DEFAULT_DEBUG C then raise e
  else
    args ← get_CLIARGS;
    let have_cli_options := cliargs_bool args in
    emit (Display_error
            ("Unexpected Exception, this is probably a bug: " +:+ exn_text e)
            (Some false));;
    full ← (if negb have_cli_options then mret true
            else v ← lift (cliargs_verbosity args); mret (2 <? v));
    log_only ←
      (if (full : bool) then
         match exn_orig_exc e with
         | Some (ty, why) =>
             emit (Display_vvv (nl +:+ "exception type: " +:+ ty));;
             (if negb (String.eqb (exn_text e) why) then
                emit (Display_vvv (nl +:+ "original msg: " +:+ why))
              else skip)
         | None => skip
         end;;
         mret false
       else
         emit (Display_display "to see the full traceback, use -vvv" None);;
         mret true);
    emit (Display_display
            ("the full traceback was:" +:+ nl +:+ nl +:+ format_exc w e)
            (Some log_only));;
    mret 250.

Definition translate (w : World) (C : Config) (e : exn) : M Z :=
  if is_AnsibleOptionsError e then
    print_help;;
    emit (Display_error (exn_text e) (Some false));;
    mret 5
  else if is_AnsibleParserError e then
    emit (Display_error (exn_text e) (Some false));;
    mret 4
  else if is_AnsibleError e then
    emit (Display_error (exn_text e) (Some false));;
    mret 1
  else if is_KeyboardInterrupt e then
    emit (Display_error "User interrupted execution" None);;
    mret 99
  else if is_Exception e then unexpected w C e
  else raise e.

Definition dispatch (w : World) (C : Config) (me : string) : M Z :=
  try_except (body w C me) (translate w C).

(** ** The process *)

(** How the process ends: [sys.exit(code)], or an exception nobody caught. *)
Inductive outcome : Type :=
| Exit (code : Z)
| Uncaught (e : exn).

(** [sys.exit(exit_code)] after the supervised block. *)
Definition sys_exit (m : M Z) : state -> outcome * state := fun s =>
  match m s with
  | (Ok code, s') => (Exit code, s')
  | (Raise e, s') => (Uncaught e, s')
  end.

(** The [__main__] block. *)
Definition main (w : World) : state -> outcome * state := fun s =>
  match import_constants w with
  | Raise e =>
      if is_AnsibleOptionsError e then
        (Exit 5, set_out (out s ++ [LastResort_error (exn_text e)]) s)
      else (Uncaught e, s)
  | Ok C =>
      match initialize_locale w with
      | Raise e => (Uncaught e, s)
      | Ok _ =>
          let me := Py.basename (sys_argv0 w) in
          sys_exit (dispatch w C me) (set_cli None s)
      end
  end.

(** The file is written with f-strings (lines 45, 78, 93, 98, 101, 105,
    106, 151): an interpreter older than Python 3.6 does not compile it. *)
Definition compiles (w : World) : bool := pair_geb (sys_version_info w) (3, 6).

(** The file run as a script: it is compiled, then the module level is
    run, then the [__main__] block. *)
Definition script (w : World) : state -> outcome * state := fun s =>
  if negb (compiles w) then (Uncaught (SyntaxError "invalid syntax"), s)
  else
    match check_python w with
    | Raise e => (Uncaught e, s)
    | Ok _ => main w s
    end.

(** The state in which the interpreter starts the stub. *)
Definition start (d : gset string) : state :=
  {| CLIARGS := None; dirs := d; out := []; cli := None |}.

(** ** Concrete worlds *)

Module Sample.

(** Debug mode off, no warning about the version of the controller. *)
Definition quiet : Config :=
  {| DEFAULT_DEBUG := false; CONTROLLER_PYTHON_WARNING := false |}.

Definition debugging : Config :=
  {| DEFAULT_DEBUG := true; CONTROLLER_PYTHON_WARNING := false |}.

(** A sub-command whose [run()] parses its options at verbosity [v] and
    then returns or raises [r]. *)
Definition a_cli (v : Z) (r : result Z) : CLIObject :=
  {| cli_run := fun _ => (r, Some {| verbosity := v |});
     cli_has_parser := true |}.

(** A module that holds one class, named [myclass]. *)
Definition module_with (myclass : string) (c : CLIClass) : PyModule :=
  fun attr => if String.eqb attr myclass then Some c else None.

(** An installation with the sub-commands [adhoc] and [playbook] only,
    given by their classes. *)
Definition installed (adhoc playbook : CLIClass) (name : string)
    (fromlist : list string) : result PyModule :=
  if String.eqb name "ansible.cli.adhoc" then Ok (module_with "AdHocCLI" adhoc)
  else if String.eqb name "ansible.cli.playbook" then
    Ok (module_with "PlaybookCLI" playbook)
  else Raise (Py.module_not_found name).

(** [to_text] on Python 3: the elements of [sys.argv] are [str] objects,
    and a [str] is returned as it is, whatever it holds. *)
Definition decode (a : string) : option string := Some a.

Definition world (argv0 : string) (rest : list string) (cfg : result Config)
    (import : string -> list string -> result PyModule)
    (mkerr : option (Z * string)) : World :=
  {| sys_version_info := (3, 9);
     sys_version := "3.9.2 (default)";
     sys_argv0 := argv0;
     sys_argv_rest := rest;
     import_constants := cfg;
     initialize_locale := Ok tt;
     import_module := import;
     b_ansible_dir := "/home/user/.ansible";
     mkdir_error := fun _ => mkerr;
     to_text_strict := decode;
     to_text_replace := fun b => b;
     format_exc := fun e => "Traceback (most recent call last): " +:+ exn_text e |}.

(** A world whose [initialize_locale] raises [e]. *)
Definition without_locale (e : exn) : World :=
  {| sys_version_info := (3, 9);
     sys_version := "3.9.2 (default)";
     sys_argv0 := "/usr/bin/ansible";
     sys_argv_rest := [];
     import_constants := Ok quiet;
     initialize_locale := Raise e;
     import_module := fun name _ => Raise (Py.module_not_found name);
     b_ansible_dir := "/home/user/.ansible";
     mkdir_error := fun _ => None;
     to_text_strict := decode;
     to_text_replace := fun b => b;
     format_exc := fun e => "Traceback (most recent call last): " +:+ exn_text e |}.

(** Every sub-command of [plain] returns 0 at verbosity 0. *)
Definition plain : string -> list string -> result PyModule :=
  installed (fun _ => Ok (a_cli 0 (Ok 0))) (fun _ => Ok (a_cli 0 (Ok 0))).

End Sample.

(** ** What the properties speak of *)

(** The token lists on which the indexing of lines 86-94 fails: the last
    token is empty, or the only token starts with a digit and nothing is
    left once it is dropped. *)
Definition leaves_nothing (me : string) : Prop :=
  last (Py.split "-" me) = Some ""
  ∨ ∃ c r, Py.split "-" me = [String c r] ∧ Py.isdigit c = true.

(** What the last clause emits when the options are parsed and the
    verbosity is at most 2: the summary on the error stream, the hint, and
    the traceback for the log only. *)
Definition quiet_report (w : World) (e : exn) : list event :=
  [ Display_error
      ("Unexpected Exception, this is probably a bug: " +:+ exn_text e)
      (Some false);
    Display_display "to see the full traceback, use -vvv" None;
    Display_display
      ("the full traceback was:" +:+ nl +:+ nl +:+ format_exc w e)
      (Some true) ].

(** The warning of line 115. *)
Definition mkdir_warning (w : World) (path text : string) : event :=
  Display_warning
    ("Failed to create the directory '" +:+ to_text_replace w path
     +:+ "': " +:+ text).

(** [m] adds no [Cli_construct] and no [Cli_run] to what was emitted. *)
Definition silent {A} (m : M A) : Prop :=
  ∀ s, List.filter invokes (out (snd (m s))) = List.filter invokes (out s).

(** What lines 124-126 emit. *)
Definition encoding_report (w : World) (e : exn) : list event :=
  [ Display_error
      "Command line args are not in utf-8, unable to continue.  Ansible currently only understands utf-8"
      None;
    Display_display
      ("The full traceback was:" +:+ nl +:+ nl +:+ format_exc w e) None ].

(** What the block emits before it looks at the basename (lines 75-82):
    the note on the version of the controller, when it is due, and the
    debug line. *)
Definition opening_events (w : World) (C : Config) : list event :=
  (if CONTROLLER_PYTHON_WARNING C && negb (_PY38_MIN w) then
     [Display_deprecated
        ("Ansible will require Python 3.8 or newer on the controller starting with Ansible 2.12. Current version: "
         +:+ version_line w)
        "2.12" "ansible.builtin"]
   else [])
  ++ [Display_debug "starting run"].

(** What the last clause emits when it shows the traceback: the summary,
    the wrapped failure when there is one, and the traceback with
    [log_only=False]. *)
Definition loud_report (w : World) (e : exn) : list event :=
  [ Display_error
      ("Unexpected Exception, this is probably a bug: " +:+ exn_text e)
      (Some false) ]
  ++ match exn_orig_exc e with
     | Some (ty, why) =>
         Display_vvv (nl +:+ "exception type: " +:+ ty)
         :: (if negb (String.eqb (exn_text e) why)
             then [Display_vvv (nl +:+ "original msg: " +:+ why)] else [])
     | None => []
     end
  ++ [ Display_display
         ("the full traceback was:" +:+ nl +:+ nl +:+ format_exc w e)
         (Some false) ].

(** The exit codes the stub produces by itself. *)
Definition own_exit_codes : list Z := [1; 4; 5; 6; 99; 250].

(** * Properties *)

(** ** Strings and indexes *)

Lemma split_not_nil sep s : Py.split sep s ≠ [].
Proof.
  destruct s as [|c r]; simpl; [easy|].
  destruct (Ascii.eqb c sep); [easy|].
  destruct (Py.split sep r); easy.
Qed.

(** A string without the separator is one token. *)
Lemma split_one sep s :
  Py.contains sep s = false → Py.split sep s = [s].
Proof.
  induction s as [|c r IH]; simpl; [easy|].
  intros H. apply orb_false_iff in H as [Hc Hr].
  rewrite Hc, (IH Hr). reflexivity.
Qed.

(** The first separator ends the first token. *)
Lemma split_app sep a b :
  Py.contains sep a = false →
  Py.split sep (a +:+ String sep "" +:+ b) = a :: Py.split sep b.
Proof.
  change (String sep "" +:+ b) with (String sep b).
  induction a as [|c r IH]; intros H.
  - change ("" +:+ String sep b) with (String sep b). simpl.
    rewrite Ascii.eqb_refl. reflexivity.
  - change (String c r +:+ String sep b) with (String c (r +:+ String sep b)).
    simpl in *. apply orb_false_iff in H as [Hc Hr].
    rewrite Hc, (IH Hr). reflexivity.
Qed.

(** [l[-1]] is the last element. *)
Lemma list_getitem_last {A} (l : list A) :
  Py.list_getitem l (-1) =
  match last l with
  | Some x => Ok x
  | None => Raise (IndexError "list index out of range")
  end.
Proof.
  unfold Py.list_getitem, Py.index_of. rewrite last_lookup.
  destruct l as [|x l]; [reflexivity|].
  change (-1 <? 0) with true. cbv iota.
  replace (-1 + Z.of_nat (length (x :: l))) with (Z.of_nat (length l))
    by (simpl length; lia).
  replace (Z.of_nat (length l) <? 0) with false
    by (symmetry; apply Z.ltb_ge; lia).
  replace (Z.of_nat (length (x :: l)) <=? Z.of_nat (length l)) with false
    by (symmetry; apply Z.leb_gt; simpl length; lia).
  simpl. rewrite Nat2Z.id. reflexivity.
Qed.

Lemma str_getitem_first c r : Py.str_getitem (String c r) 0 = Ok c.
Proof. reflexivity. Qed.

Lemma str_getitem_empty i :
  Py.str_getitem "" i = Raise (IndexError "string index out of range").
Proof.
  unfold Py.str_getitem, Py.index_of. simpl String.length.
  destruct (i <? 0) eqn:Hi.
  - rewrite Z.add_0_r, Hi. reflexivity.
  - apply Z.ltb_ge in Hi.
    replace (Z.of_nat 0 <=? i) with true by (symmetry; apply Z.leb_le; lia).
    rewrite orb_true_r. reflexivity.
Qed.

(** ** Alias resolution *)

(** The token list of a basename whose last token starts with a digit. *)
Lemma alias_target_versioned me (toks : list string) c r :
  Py.split "-" me = (toks ++ [String c r])%list →
  Py.isdigit c = true →
  alias_target me = Ok toks.
Proof.
  intros Hs Hd. unfold alias_target. rewrite Hs, list_getitem_last, last_snoc.
  simpl. rewrite Hd. f_equal.
  unfold Py.slice_to. change (-1 <? 0) with true. cbv iota.
  rewrite length_app. simpl length.
  replace (Z.to_nat (Z.max 0 (-1 + Z.of_nat (length toks + 1))))
    with (length toks) by lia.
  apply take_app_length.
Qed.

(** C1. Every basename [<prefix>-<name>-<digits>], whose three tokens hold
    no hyphen and whose last token starts with a digit, resolves to the
    alias [<name>], whatever the digit string is; and the basename
    [ansible] resolves to the default alias [adhoc].  The alias is computed
    from the basename alone. *)
Theorem alias_of_versioned_basename (pre name digits : string) (d : ascii)
    (rest : string) :
  Py.contains "-" pre = false →
  Py.contains "-" name = false →
  Py.contains "-" digits = false →
  digits = String d rest →
  Py.isdigit d = true →
  alias_of (pre +:+ "-" +:+ name +:+ "-" +:+ digits) = Ok name
  ∧ alias_of primary_name = Ok default_alias.
Proof.
  intros Hp Hn Hd -> Hdig. split; [|reflexivity].
  unfold alias_of, resolve_alias.
  rewrite (alias_target_versioned _ [pre; name] d rest); [reflexivity| |done].
  rewrite (split_app _ pre), (split_app _ name) by done.
  rewrite split_one by done. reflexivity.
Qed.

Lemma alias_of_versioned_basename_witness :
  alias_of "ansible-playbook-2.9" = Ok "playbook"
  ∧ alias_of primary_name = Ok default_alias.
Proof.
  apply (alias_of_versioned_basename "ansible" "playbook" "2.9" "2" ".9");
    reflexivity.
Defined.

Lemma resolve_alias_index_error me :
  leaves_nothing me → ∃ msg, resolve_alias me = Raise (IndexError msg).
Proof.
  intros [H | (c & r & H & Hd)]; unfold resolve_alias.
  - unfold alias_target. rewrite list_getitem_last, H. simpl.
    eauto.
  - rewrite (alias_target_versioned me [] c r) by done. simpl. eauto.
Qed.

(** One token is left and it is not the primary name: the alias is
    unknown. *)
Lemma resolve_alias_unknown me t :
  alias_target me = Ok [t] →
  t ≠ primary_name →
  resolve_alias me = Raise (AnsibleError ("Unknown Ansible alias: " +:+ me)).
Proof.
  intros Ht Hne. unfold resolve_alias. rewrite Ht. simpl.
  apply String.eqb_neq in Hne. rewrite Hne. reflexivity.
Qed.

(** C5.  The basename [2.9] has no second component and is not [ansible],
    yet its resolution raises [IndexError], not the error of an unknown
    alias, and the process ends with exit code 250, not 1. *)
Theorem resolve_alias_digit_token :
  resolve_alias "2.9" = Raise (IndexError "list index out of range")
  ∧ resolve_alias "2.9" ≠ Raise (AnsibleError "Unknown Ansible alias: 2.9")
  ∧ fst (main (Sample.world "/usr/bin/2.9" [] (Ok Sample.quiet) Sample.plain None)
           (start ∅)) = Exit 250.
Proof.
  split; [reflexivity|]. split; [|reflexivity].
  intros H. vm_compute in H. discriminate H.
Qed.

(** C8.  On the basename [ansible-] the resolution neither returns an alias
    nor fails with the error of an unknown alias: it raises [IndexError]. *)
Theorem resolve_alias_trailing_hyphen :
  resolve_alias "ansible-" = Raise (IndexError "string index out of range")
  ∧ (∀ a, resolve_alias "ansible-" ≠ Ok a)
  ∧ (∀ msg, resolve_alias "ansible-" ≠ Raise (AnsibleError msg)).
Proof.
  split; [reflexivity|].
  split; intros x H; vm_compute in H; discriminate H.
Qed.

(** ** The supervised block and its handlers *)

(** Runs the straight-line part of a computation on a given state. *)
Ltac exec :=
  repeat (progress
    (unfold mbind, M_bind, mret, M_ret, result_bind, result_ret, get_CLIARGS,
       get_cli, emit, lift, raise, skip, assign_cli, set_out; cbn)).

Lemma main_dispatch w C u s :
  import_constants w = Ok C →
  initialize_locale w = Ok u →
  main w s = sys_exit (dispatch w C (Py.basename (sys_argv0 w))) (set_cli None s).
Proof. intros Hc Hl. unfold main. rewrite Hc, Hl. reflexivity. Qed.

Lemma dispatch_raise w C me s e s1 :
  body w C me s = (Raise e, s1) →
  dispatch w C me s = translate w C e s1.
Proof. intros H. unfold dispatch, try_except. rewrite H. reflexivity. Qed.

Lemma dispatch_return w C me s code s1 :
  body w C me s = (Ok code, s1) →
  dispatch w C me s = (Ok code, s1).
Proof. intros H. unfold dispatch, try_except. rewrite H. reflexivity. Qed.

Lemma translate_unclassified w C e :
  unclassified e = true → translate w C e = unexpected w C e.
Proof. destruct e; simpl; intros H; try discriminate H; reflexivity. Qed.

Lemma unexpected_debug w C e s :
  DEFAULT_DEBUG C = true → unexpected w C e s = (Raise e, s).
Proof. intros H. unfold unexpected. rewrite H. reflexivity. Qed.

Lemma unexpected_exits w C e s :
  DEFAULT_DEBUG C = false → ∃ s', unexpected w C e s = (Ok 250, s').
Proof.
  intros H. unfold unexpected. rewrite H.
  destruct s as [[o|] d evs c]; exec.
  - destruct (2 <? verbosity o); exec; [|eauto].
    destruct (exn_orig_exc e) as [[ty why]|]; exec; [|eauto].
    destruct (negb (String.eqb (exn_text e) why)); exec; eauto.
  - destruct (exn_orig_exc e) as [[ty why]|]; exec; [|eauto].
    destruct (negb (String.eqb (exn_text e) why)); exec; eauto.
Qed.

Lemma unexpected_quiet_report w C e s o :
  DEFAULT_DEBUG C = false →
  CLIARGS s = Some o →
  verbosity o <= 2 →
  unexpected w C e s = (Ok 250, set_out (out s ++ quiet_report w e) s).
Proof.
  intros H Ho Hv. unfold unexpected. rewrite H.
  destruct s as [a d evs c]. simpl in Ho. subst a. exec.
  replace (2 <? verbosity o) with false by (symmetry; apply Z.ltb_ge; lia).
  exec. unfold quiet_report. rewrite <- !app_assoc. reflexivity.
Qed.

(** C6.  When the supervised block raises a failure of no recognised kind,
    the process lets it through uncaught if the debug flag is set, and ends
    with exit code 250 if it is not. *)
Theorem unclassified_failure w C u s e s1 :
  import_constants w = Ok C →
  initialize_locale w = Ok u →
  body w C (Py.basename (sys_argv0 w)) (set_cli None s) = (Raise e, s1) →
  unclassified e = true →
  (DEFAULT_DEBUG C = true → main w s = (Uncaught e, s1))
  ∧ (DEFAULT_DEBUG C = false → ∃ s2, main w s = (Exit 250, s2)).
Proof.
  intros Hc Hl Hb He.
  rewrite (main_dispatch w C u s Hc Hl). unfold sys_exit.
  rewrite (dispatch_raise _ _ _ _ _ _ Hb), (translate_unclassified _ _ _ He).
  split; intros Hd.
  - rewrite unexpected_debug by done. reflexivity.
  - destruct (unexpected_exits w C e s1 Hd) as [s2 ->]. eauto.
Qed.

(** C7.  With the debug flag unset, the options parsed and a verbosity of
    at most 2, a failure of no recognised kind ends the process with exit
    code 250; what is emitted is the one-line summary on the error stream,
    the hint, and the traceback with [log_only=True]. *)
Theorem unclassified_failure_quiet w C u s e s1 o :
  import_constants w = Ok C →
  initialize_locale w = Ok u →
  body w C (Py.basename (sys_argv0 w)) (set_cli None s) = (Raise e, s1) →
  unclassified e = true →
  DEFAULT_DEBUG C = false →
  CLIARGS s1 = Some o →
  verbosity o <= 2 →
  main w s = (Exit 250, set_out (out s1 ++ quiet_report w e) s1).
Proof.
  intros Hc Hl Hb He Hd Ho Hv.
  rewrite (main_dispatch w C u s Hc Hl). unfold sys_exit.
  rewrite (dispatch_raise _ _ _ _ _ _ Hb), (translate_unclassified _ _ _ He).
  rewrite (unexpected_quiet_report w C e s1 o) by done. reflexivity.
Qed.

Lemma unclassified_failure_witness :
  (let w := Sample.world "ansible" [] (Ok Sample.debugging)
              (Sample.installed
                 (fun _ => Ok (Sample.a_cli 0 (Raise (OtherException "boom" None))))
                 (fun _ => Ok (Sample.a_cli 0 (Ok 0)))) None in
   main w (start ∅) =
   (Uncaught (OtherException "boom" None),
    snd (body w Sample.debugging "ansible" (set_cli None (start ∅)))))
  ∧ (let w := Sample.world "ansible" [] (Ok Sample.quiet)
                (Sample.installed
                   (fun _ => Ok (Sample.a_cli 0 (Raise (OtherException "boom" None))))
                   (fun _ => Ok (Sample.a_cli 0 (Ok 0)))) None in
     ∃ s2, main w (start ∅) = (Exit 250, s2)).
Proof.
  split; intros w.
  - edestruct (unclassified_failure w Sample.debugging tt (start ∅)
                 (OtherException "boom" None)) as [H _];
      [reflexivity | reflexivity | reflexivity | reflexivity |].
    apply H. reflexivity.
  - edestruct (unclassified_failure w Sample.quiet tt (start ∅)
                 (OtherException "boom" None)) as [_ H];
      [reflexivity | reflexivity | reflexivity | reflexivity |].
    apply H. reflexivity.
Defined.

(** C6, as first stated, fails outside the supervised block: a failure of
    no recognised kind raised by [initialize_locale] (line 69), with the
    debug flag unset, leaves the process uncaught; no exit code 250 is
    produced and nothing is emitted. *)
Lemma unclassified_failure_outside_try :
  let e := OtherException "unsupported locale setting" None in
  let w := Sample.without_locale e in
  import_constants w = Ok Sample.quiet
  ∧ DEFAULT_DEBUG Sample.quiet = false
  ∧ unclassified e = true
  ∧ initialize_locale w = Raise e
  ∧ main w (start ∅) = (Uncaught e, start ∅)
  ∧ fst (main w (start ∅)) ≠ Exit 250.
Proof.
  intros e w. repeat (split; [reflexivity|]).
  intros H. vm_compute in H. discriminate H.
Qed.

Lemma unclassified_failure_quiet_witness :
  let w := Sample.world "ansible" [] (Ok Sample.quiet)
             (Sample.installed
                (fun _ => Ok (Sample.a_cli 2 (Raise (OtherException "boom" None))))
                (fun _ => Ok (Sample.a_cli 0 (Ok 0)))) None in
  let s1 := snd (body w Sample.quiet "ansible" (set_cli None (start ∅))) in
  main w (start ∅) =
  (Exit 250, set_out (out s1 ++ quiet_report w (OtherException "boom" None)) s1).
Proof.
  intros w s1.
  apply (unclassified_failure_quiet w Sample.quiet tt (start ∅)
           (OtherException "boom" None) s1 {| verbosity := 2 |});
    first [reflexivity | vm_compute; discriminate].
Defined.

(** C7, as first stated, fails while the options are not parsed: with the
    debug flag unset and no [-v] on the command line, a failure of no
    recognised kind raised by the constructor finds [context.CLIARGS]
    empty, and the guard of line 154 has the traceback displayed
    ([log_only=False]) without the hint. *)
Lemma unclassified_failure_before_options :
  let e := OtherException "boom" None in
  let w := Sample.world "/usr/bin/ansible" ["-m"; "ping"] (Ok Sample.quiet)
             (Sample.installed (fun _ => Raise e)
                (fun _ => Ok (Sample.a_cli 0 (Ok 0)))) None in
  DEFAULT_DEBUG Sample.quiet = false
  ∧ unclassified e = true
  ∧ fst (main w (start ∅)) = Exit 250
  ∧ CLIARGS (snd (main w (start ∅))) = None
  ∧ out (snd (main w (start ∅)))
    = [ Display_debug "starting run";
        Display_debug "Created the '/home/user/.ansible' directory";
        Cli_construct "AdHocCLI" ["/usr/bin/ansible"; "-m"; "ping"];
        Display_error "Unexpected Exception, this is probably a bug: boom"
          (Some false);
        Display_display
          ("the full traceback was:" +:+ nl +:+ nl +:+ format_exc w e)
          (Some false) ].
Proof. intros e w. repeat split. Qed.

(** ** Failures of the indexing in the alias step *)

Lemma body_alias_raise w C me e s :
  resolve_alias me = Raise e → ∃ s1, body w C me s = (Raise e, s1).
Proof.
  intros H. unfold body.
  destruct (CONTROLLER_PYTHON_WARNING C && negb (_PY38_MIN w));
    exec; rewrite H; exec; eauto.
Qed.

(** C10.  When the split of the basename leaves an empty last token, or a
    single token that starts with a digit (so that no token is left once it
    is dropped), the alias step raises [IndexError]; the last clause
    handles it, and with the debug flag unset the process ends with exit
    code 250. *)
Theorem index_error_exit_250 w C u s :
  import_constants w = Ok C →
  initialize_locale w = Ok u →
  DEFAULT_DEBUG C = false →
  leaves_nothing (Py.basename (sys_argv0 w)) →
  (∃ msg, resolve_alias (Py.basename (sys_argv0 w)) = Raise (IndexError msg))
  ∧ ∃ s', main w s = (Exit 250, s').
Proof.
  intros Hc Hl Hd Hn.
  destruct (resolve_alias_index_error _ Hn) as [msg Hr].
  split; [eauto|].
  destruct (body_alias_raise w C _ _ (set_cli None s) Hr) as [s1 Hb].
  rewrite (main_dispatch w C u s Hc Hl). unfold sys_exit.
  rewrite (dispatch_raise _ _ _ _ _ _ Hb), translate_unclassified by done.
  destruct (unexpected_exits w C (IndexError msg) s1 Hd) as [s2 ->]. eauto.
Qed.

Lemma index_error_exit_250_witness :
  let w := Sample.world "/usr/local/bin/2.9" ["--version"] (Ok Sample.quiet)
             Sample.plain None in
  (∃ msg, resolve_alias (Py.basename (sys_argv0 w)) = Raise (IndexError msg))
  ∧ ∃ s', main w (start ∅) = (Exit 250, s').
Proof.
  intros w.
  apply (index_error_exit_250 w Sample.quiet tt (start ∅));
    [reflexivity | reflexivity | reflexivity |].
  right. exists "2"%char, ".9". split; reflexivity.
Defined.

(** The other shape: a basename that ends with a hyphen. *)
Example trailing_hyphen_exit_250 :
  let w := Sample.world "/usr/local/bin/ansible-" [] (Ok Sample.quiet)
             Sample.plain None in
  fst (main w (start ∅)) = Exit 250.
Proof. reflexivity. Qed.

(** ** The state directory *)

(** The directory is there: nothing is emitted, nothing changes. *)
Lemma ensure_state_directory_exists w path s :
  path ∈ dirs s → ensure_state_directory w path s = (Ok tt, s).
Proof.
  intros H. unfold ensure_state_directory, try_except_else, os_mkdir.
  rewrite decide_True by done. reflexivity.
Qed.

(** The directory cannot be created: a warning, unless the error is
    [EEXIST]. *)
Lemma ensure_state_directory_fails w path s errno strerror :
  path ∉ dirs s →
  mkdir_error w path = Some (errno, strerror) →
  ensure_state_directory w path s =
  (Ok tt, set_out (out s ++ (if errno =? EEXIST then []
                             else [mkdir_warning w path strerror])) s).
Proof.
  intros H He. unfold ensure_state_directory, try_except_else, os_mkdir.
  rewrite decide_False by done. rewrite He.
  destruct (errno =? EEXIST); exec; [|reflexivity].
  rewrite app_nil_r. destruct s; reflexivity.
Qed.

(** The directory is created: a debug note. *)
Lemma ensure_state_directory_creates w path s :
  path ∉ dirs s →
  mkdir_error w path = None →
  ensure_state_directory w path s =
  (Ok tt,
   set_out (out s ++ [Display_debug
                        ("Created the '" +:+ to_text_replace w path
                         +:+ "' directory")])
     (set_dirs ({[path]} ∪ dirs s) s)).
Proof.
  intros H He. unfold ensure_state_directory, try_except_else, os_mkdir.
  rewrite decide_False by done. rewrite He. reflexivity.
Qed.

(** In every case the preparation returns. *)
Lemma ensure_state_directory_returns w path s :
  ∃ s', ensure_state_directory w path s = (Ok tt, s').
Proof.
  destruct (decide (path ∈ dirs s)) as [Hin | Hout].
  - rewrite ensure_state_directory_exists by done. eauto.
  - destruct (mkdir_error w path) as [[errno text]|] eqn:He.
    + rewrite (ensure_state_directory_fails _ _ _ _ _ Hout He). eauto.
    + rewrite (ensure_state_directory_creates _ _ _ Hout He). eauto.
Qed.

(** C9.  Preparing the state directory always returns: it never raises,
    hence never ends the process.  When the directory is already there
    nothing is emitted and nothing changes; when it cannot be created for
    another reason, the only effect is one warning; and once the directory
    is there after a call, a second call on the same path returns without
    any event, whatever the world then answers. *)
Theorem ensure_state_directory_idempotent w path s :
  ∃ s', ensure_state_directory w path s = (Ok tt, s')
    ∧ (path ∈ dirs s → s' = s)
    ∧ (∀ errno strerror,
         path ∉ dirs s → mkdir_error w path = Some (errno, strerror) →
         errno ≠ EEXIST →
         s' = set_out (out s ++ [mkdir_warning w path strerror]) s)
    ∧ (path ∉ dirs s → mkdir_error w path = None →
         path ∈ dirs s' ∧ List.filter warns (out s') = List.filter warns (out s))
    ∧ (path ∈ dirs s' → ∀ w', ensure_state_directory w' path s' = (Ok tt, s')).
Proof.
  destruct (decide (path ∈ dirs s)) as [Hin | Hout].
  - exists s. rewrite ensure_state_directory_exists by done.
    split; [reflexivity|]. split; [done|]. split; [done|]. split; [done|].
    intros _ w'. by apply ensure_state_directory_exists.
  - destruct (mkdir_error w path) as [[errno strerror]|] eqn:He.
    + eexists. rewrite (ensure_state_directory_fails _ _ _ _ _ Hout He).
      split; [reflexivity|]. split; [done|]. split; [|split; [done|]].
      * intros errno' strerror' _ [= <- <-] Hne.
        apply Z.eqb_neq in Hne. rewrite Hne. reflexivity.
      * intros Hin w'. by apply ensure_state_directory_exists.
    + eexists. rewrite (ensure_state_directory_creates _ _ _ Hout He).
      split; [reflexivity|]. split; [done|]. split; [done|]. split.
      * intros _ _. simpl. split; [set_solver|].
        rewrite List.filter_app. simpl. apply app_nil_r.
      * intros Hin w'. by apply ensure_state_directory_exists.
Qed.

(** Two calls in a row on a path that can be created: the second one finds
    the directory and is silent. *)
Example ensure_state_directory_twice :
  let w := Sample.world "ansible" [] (Ok Sample.quiet) Sample.plain None in
  let s1 := snd (ensure_state_directory w "/home/user/.ansible" (start ∅)) in
  ensure_state_directory w "/home/user/.ansible" s1 = (Ok tt, s1)
  ∧ List.filter warns (out s1) = [].
Proof. split; reflexivity. Qed.

(** ** Computations that do not enter the sub-command *)

Create HintDb silent.

Section Silent.
Context {A B : Type}.

Lemma silent_ret (a : A) : silent (mret a : M A).
Proof. intros s. reflexivity. Qed.

Lemma silent_raise (e : exn) : silent (raise e : M A).
Proof. intros s. reflexivity. Qed.

Lemma silent_lift (r : result A) : silent (lift r).
Proof. intros s. reflexivity. Qed.

Lemma silent_bind (m : M A) (f : A → M B) :
  silent m → (∀ a, silent (f a)) → silent (m ≫= f).
Proof.
  intros Hm Hf s. specialize (Hm s).
  unfold mbind, M_bind. destruct (m s) as [[a|e] s1]; simpl in *.
  - rewrite (Hf a s1). exact Hm.
  - exact Hm.
Qed.

Lemma silent_try_except (m : M A) (h : exn → M A) :
  silent m → (∀ e, silent (h e)) → silent (try_except m h).
Proof.
  intros Hm Hh s. specialize (Hm s).
  unfold try_except. destruct (m s) as [[a|e] s1]; simpl in *.
  - exact Hm.
  - rewrite (Hh e s1). exact Hm.
Qed.

(** The [else] part need only be silent when it is reached. *)
Lemma silent_try_except_else (m : M A) (h : exn → M B) (k : A → M B) :
  silent m → (∀ e, silent (h e)) →
  (∀ s a s1, m s = (Ok a, s1) → silent (k a)) →
  silent (try_except_else m h k).
Proof.
  intros Hm Hh Hk s. specialize (Hm s). specialize (Hk s).
  unfold try_except_else. destruct (m s) as [[a|e] s1]; simpl in *.
  - rewrite (Hk a s1 eq_refl s1). exact Hm.
  - rewrite (Hh e s1). exact Hm.
Qed.
End Silent.

Lemma silent_emit ev : invokes ev = false → silent (emit ev).
Proof.
  intros H s. unfold emit. simpl. rewrite List.filter_app. simpl.
  rewrite H. apply app_nil_r.
Qed.

Lemma silent_skip : silent skip.
Proof. apply silent_ret. Qed.

Lemma silent_get_CLIARGS : silent get_CLIARGS.
Proof. intros s. reflexivity. Qed.

Lemma silent_get_cli : silent get_cli.
Proof. intros s. reflexivity. Qed.

Lemma silent_os_mkdir w path mode : silent (os_mkdir w path mode).
Proof.
  intros s. unfold os_mkdir. destruct (decide (path ∈ dirs s)); [reflexivity|].
  destruct (mkdir_error w path) as [[errno strerror]|]; reflexivity.
Qed.

#[local] Hint Resolve silent_ret silent_raise silent_lift silent_skip
  silent_get_CLIARGS silent_get_cli silent_os_mkdir : silent.
#[local] Hint Extern 1 (silent (emit _)) =>
  apply silent_emit; reflexivity : silent.
#[local] Hint Extern 2 (silent (_ ≫= _)) =>
  apply silent_bind; [|intros ?] : silent.
#[local] Hint Extern 2 (silent (try_except _ _)) =>
  apply silent_try_except; [|intros ?] : silent.
#[local] Hint Extern 3 (silent (if ?b then _ else _)) => destruct b : silent.
#[local] Hint Extern 3 (silent (match ?x with _ => _ end)) =>
  destruct x : silent.

Lemma silent_load w me sub myclass : silent (load w me sub myclass).
Proof. unfold load. auto 10 with silent. Qed.

Lemma silent_ensure_state_directory w path :
  silent (ensure_state_directory w path).
Proof.
  unfold ensure_state_directory. apply silent_try_except_else.
  - auto with silent.
  - intros e. auto 10 with silent.
  - intros _ _ _ _. auto with silent.
Qed.

Lemma silent_print_help : silent print_help.
Proof. unfold print_help. auto 10 with silent. Qed.

Lemma silent_unexpected w C e : silent (unexpected w C e).
Proof. unfold unexpected. auto 20 with silent. Qed.

Lemma silent_translate w C e : silent (translate w C e).
Proof.
  pose proof silent_print_help. pose proof (silent_unexpected w C e).
  unfold translate. auto 20 with silent.
Qed.

(** ** An argument that cannot be decoded *)

Lemma for_each_cons {A B} (f : A → M B) a l s :
  for_each f (a :: l) s =
  match f a s with
  | (Ok b, s1) =>
      match for_each f l s1 with
      | (Ok bs, s2) => (Ok (b :: bs), s2)
      | (Raise e, s2) => (Raise e, s2)
      end
  | (Raise e, s1) => (Raise e, s1)
  end.
Proof.
  simpl. unfold mbind, M_bind. destruct (f a s) as [[b|e] s1]; [|reflexivity].
  destruct (for_each f l s1) as [[bs|e] s2]; reflexivity.
Qed.

Lemma decode_arg_run w a s :
  decode_arg w a s =
  (match to_text_strict w a with
   | Some t => Ok t
   | None => Raise (UnicodeError "'utf-8' codec can't decode")
   end, s).
Proof. unfold decode_arg. destruct (to_text_strict w a); reflexivity. Qed.

(** Decoding touches nothing: it returns the texts or raises. *)
Lemma for_each_decode_state w l s :
  snd (for_each (decode_arg w) l s) = s.
Proof.
  induction l as [|a l IH]; [reflexivity|].
  rewrite for_each_cons, decode_arg_run.
  destruct (to_text_strict w a); [|reflexivity].
  destruct (for_each _ l s) as [[bs|e] s1]; exact IH.
Qed.

Lemma for_each_decode_fails w l a s :
  a ∈ l → to_text_strict w a = None →
  ∃ msg, for_each (decode_arg w) l s = (Raise (UnicodeError msg), s).
Proof.
  intros Hin Ha. induction l as [|b l IH]; [by apply elem_of_nil in Hin|].
  rewrite for_each_cons, decode_arg_run.
  destruct (to_text_strict w b) as [t|] eqn:Hb; [|eauto].
  apply elem_of_cons in Hin as [-> | Hin]; [congruence|].
  destruct (IH Hin) as [msg ->]. eauto.
Qed.

Lemma encode_and_run_undecodable w myclass mycli a s :
  a ∈ sys_argv w → to_text_strict w a = None →
  ∃ e, encode_and_run w myclass mycli s =
       (Ok 6, set_out (out s ++ encoding_report w e) s).
Proof.
  intros Hin Ha.
  destruct (for_each_decode_fails w _ a s Hin Ha) as [msg H].
  exists (UnicodeError msg).
  unfold encode_and_run, try_except_else. rewrite H. exec.
  unfold encoding_report. rewrite <- app_assoc. reflexivity.
Qed.

Lemma silent_encode_and_run w myclass mycli a :
  a ∈ sys_argv w → to_text_strict w a = None →
  silent (encode_and_run w myclass mycli).
Proof.
  intros Hin Ha s.
  destruct (encode_and_run_undecodable w myclass mycli a s Hin Ha) as [e ->].
  simpl. rewrite List.filter_app. simpl. apply app_nil_r.
Qed.

Lemma silent_body w C me a :
  a ∈ sys_argv w → to_text_strict w a = None → silent (body w C me).
Proof.
  intros Hin Ha.
  pose proof (silent_encode_and_run w) as He.
  pose proof (silent_ensure_state_directory w (b_ansible_dir w)).
  pose proof (silent_load w me).
  unfold body. repeat (apply silent_bind; [|intros ?]); eauto with silent.
Qed.

Lemma silent_main w a s :
  a ∈ sys_argv w → to_text_strict w a = None →
  List.filter invokes (out (snd (main w s))) = List.filter invokes (out s).
Proof.
  intros Hin Ha. unfold main.
  destruct (import_constants w) as [C|e].
  - destruct (initialize_locale w) as [u|e]; [|reflexivity].
    unfold sys_exit.
    assert (Hs : silent (dispatch w C (Py.basename (sys_argv0 w)))).
    { apply silent_try_except; [by eapply silent_body|].
      intros e. apply silent_translate. }
    specialize (Hs (set_cli None s)).
    destruct (dispatch _ _ _ _) as [[code|e] s1]; exact Hs.
  - destruct (is_AnsibleOptionsError e); [|reflexivity].
    simpl. rewrite List.filter_app. simpl. apply app_nil_r.
Qed.

Lemma load_found w me sub myclass m mycli s :
  import_module w ("ansible.cli." +:+ sub) [myclass] = Ok m →
  m myclass = Some mycli →
  load w me sub myclass s = (Ok mycli, s).
Proof.
  intros Hi Hm. unfold load, try_except, getattr_class. exec.
  rewrite Hi. exec. rewrite Hm. reflexivity.
Qed.

(** The branch of lines 123-126, for a [to_text] that raises on some
    argument: the sub-command is neither constructed nor run; and when the
    configuration is imported, the alias resolved and its class loaded, the
    process ends with exit code 6. *)
Lemma decode_failure_exit_6 w s a :
  a ∈ sys_argv w →
  to_text_strict w a = None →
  List.filter invokes (out (snd (main w s))) = List.filter invokes (out s)
  ∧ ∀ C u sub myclass m mycli,
      import_constants w = Ok C →
      initialize_locale w = Ok u →
      resolve_alias (Py.basename (sys_argv0 w)) = Ok (sub, myclass) →
      import_module w ("ansible.cli." +:+ sub) [myclass] = Ok m →
      m myclass = Some mycli →
      fst (main w s) = Exit 6.
Proof.
  intros Hin Ha. split; [by eapply silent_main|].
  intros C u sub myclass m mycli Hc Hl Hr Hi Hm.
  rewrite (main_dispatch w C u s Hc Hl). unfold sys_exit.
  assert (∃ s1, body w C (Py.basename (sys_argv0 w)) (set_cli None s) = (Ok 6, s1))
    as [s1 Hb].
  { unfold body. generalize (set_cli None s). intros s0.
    destruct (CONTROLLER_PYTHON_WARNING C && negb (_PY38_MIN w)); exec;
      rewrite Hr; exec; rewrite (load_found _ _ _ _ _ _ _ Hi Hm).
    all: match goal with |- context [ensure_state_directory ?w ?p ?s] =>
           destruct (ensure_state_directory_returns w p s) as (s2 & ->)
         end.
    all: destruct (encode_and_run_undecodable w myclass mycli a s2 Hin Ha)
           as [e ->]; eauto. }
  rewrite (dispatch_return _ _ _ _ _ _ Hb). reflexivity.
Qed.

(** ** The loader and a module that does not exist *)

Lemma append_length a b :
  String.length (a +:+ b) = (String.length a + String.length b)%nat.
Proof.
  induction a as [|c a IH]; [reflexivity|].
  change (String c a +:+ b) with (String c (a +:+ b)). simpl. by rewrite IH.
Qed.

Lemma substring_all s : String.substring 0 (String.length s) s = s.
Proof. induction s as [|c s IH]; simpl; [reflexivity | by rewrite IH]. Qed.

Lemma substring_skip a b n :
  String.substring (String.length a) n (a +:+ b) = String.substring 0 n b.
Proof.
  induction a as [|c a IH]; [reflexivity|].
  change (String c a +:+ b) with (String c (a +:+ b)). simpl. exact IH.
Qed.

(** A string followed by a character is not that string preceded by
    another character. *)
Lemma snoc_neq_cons (c d : ascii) s :
  c ≠ d → s +:+ String d "" ≠ String c s.
Proof.
  intros Hcd. revert c Hcd. induction s as [|x s IH]; intros c Hcd.
  - intros [= ->]. done.
  - change (String x s +:+ String d "") with (String x (s +:+ String d "")).
    intros [= -> H]. by apply (IH c).
Qed.

Lemma endswith_snoc_cons (p sub : string) (c d : ascii) :
  c ≠ d → Py.endswith (p +:+ sub +:+ String d "") (String c sub) = false.
Proof.
  intros Hcd. unfold Py.endswith. apply andb_false_iff. right.
  apply String.eqb_neq.
  rewrite !append_length. simpl String.length.
  replace (String.length p + (String.length sub + 1) - S (String.length sub))%nat
    with (String.length p) by lia.
  rewrite substring_skip.
  replace (S (String.length sub)) with (String.length (sub +:+ String d ""))
    by (rewrite append_length; simpl; lia).
  rewrite substring_all. by apply snoc_neq_cons.
Qed.

(** The message of [Py.module_not_found] never ends with a blank and the
    alias: it ends with the closing quote. *)
Lemma module_not_found_not_endswith sub :
  Py.endswith ("No module named '" +:+ ("ansible.cli." +:+ sub) +:+ "'")
    (" " +:+ sub) = false.
Proof. by apply (endswith_snoc_cons "No module named 'ansible.cli." sub). Qed.

(** Whatever the alias, the loader hands on the [ImportError] of a module
    that does not exist; it does not turn it into an [AnsibleError]. *)
Lemma load_module_not_found w me sub myclass s :
  import_module w ("ansible.cli." +:+ sub) [myclass]
  = Raise (Py.module_not_found ("ansible.cli." +:+ sub)) →
  load w me sub myclass s
  = (Raise (Py.module_not_found ("ansible.cli." +:+ sub)), s).
Proof.
  intros H. unfold load, try_except. exec. rewrite H. exec.
  unfold Py.module_not_found. rewrite module_not_found_not_endswith.
  reflexivity.
Qed.

(** What the heuristic of line 105 does decide: an [ImportError] becomes
    the error of a sub-program that is not implemented exactly when its
    message ends with a blank and the alias. *)
Lemma load_import_error w me sub myclass msg s :
  import_module w ("ansible.cli." +:+ sub) [myclass] = Raise (ImportError msg) →
  load w me sub myclass s =
  (Raise (if Py.endswith msg (" " +:+ sub)
          then AnsibleError ("Ansible sub-program not implemented: " +:+ me)
          else ImportError msg), s).
Proof.
  intros H. unfold load, try_except. exec. rewrite H. exec.
  destruct (Py.endswith msg (" " +:+ sub)); reflexivity.
Qed.

(** C3.  Invoked as [ansible-foo] where no module [ansible.cli.foo] exists,
    the loader does not fail with the error of a sub-program that is not
    implemented: the [ImportError] goes on to the last clause, and the
    process ends with exit code 250, not 1. *)
Theorem missing_subcommand_exit_250 :
  let w := Sample.world "/usr/bin/ansible-foo" [] (Ok Sample.quiet)
             Sample.plain None in
  resolve_alias (Py.basename (sys_argv0 w)) = Ok ("foo", "FooCLI")
  ∧ load w "ansible-foo" "foo" "FooCLI" (start ∅)
    = (Raise (ImportError "No module named 'ansible.cli.foo'"), start ∅)
  ∧ fst (main w (start ∅)) = Exit 250.
Proof. repeat split. Qed.

(** ** Errors of options and configuration *)

(** A failure of the configuration import ends the process with exit code
    5, the message going to the sink of last resort. *)
Lemma options_error_at_import w s msg :
  import_constants w = Raise (AnsibleOptionsError msg) →
  main w s = (Exit 5, set_out (out s ++ [LastResort_error msg]) s).
Proof. intros H. unfold main. rewrite H. reflexivity. Qed.

(** Raised by [run()] of a sub-command whose parser is set: help first,
    then the message, exit code 5. *)
Lemma options_error_with_parser w C u s msg s1 c :
  import_constants w = Ok C →
  initialize_locale w = Ok u →
  body w C (Py.basename (sys_argv0 w)) (set_cli None s)
  = (Raise (AnsibleOptionsError msg), s1) →
  cli s1 = Some c →
  cli_has_parser c = true →
  main w s =
  (Exit 5,
   set_out (out s1 ++ [Parser_print_help; Display_error msg (Some false)]) s1).
Proof.
  intros Hc Hl Hb Hs Hp.
  rewrite (main_dispatch w C u s Hc Hl). unfold sys_exit.
  rewrite (dispatch_raise _ _ _ _ _ _ Hb).
  destruct s1 as [a d evs c']. simpl in Hs. subst c'.
  unfold translate, print_help. exec. rewrite Hp. exec.
  rewrite <- app_assoc. reflexivity.
Qed.

(** Raised before [cli] is assigned: the handler itself fails on
    [cli.parser], and nothing translates that failure. *)
Lemma options_error_without_cli w C u s msg s1 :
  import_constants w = Ok C →
  initialize_locale w = Ok u →
  body w C (Py.basename (sys_argv0 w)) (set_cli None s)
  = (Raise (AnsibleOptionsError msg), s1) →
  cli s1 = None →
  main w s =
  (Uncaught (AttributeError "'NoneType' object has no attribute 'parser'"), s1).
Proof.
  intros Hc Hl Hb Hs.
  rewrite (main_dispatch w C u s Hc Hl). unfold sys_exit.
  rewrite (dispatch_raise _ _ _ _ _ _ Hb).
  destruct s1 as [a d evs c']. simpl in Hs. subst c'.
  unfold translate, print_help. exec. reflexivity.
Qed.

(** C4.  When the constructor of the sub-command raises an
    [AnsibleOptionsError], [cli] is still [None]: the process does not end
    with exit code 5 but with an uncaught [AttributeError], and neither
    help nor the message of the error is emitted. *)
Theorem options_error_before_cli :
  let w := Sample.world "/usr/bin/ansible" ["-m"; "ping"] (Ok Sample.quiet)
             (Sample.installed
                (fun _ => Raise (AnsibleOptionsError "bad option"))
                (fun _ => Ok (Sample.a_cli 0 (Ok 0)))) None in
  fst (main w (start ∅))
  = Uncaught (AttributeError "'NoneType' object has no attribute 'parser'")
  ∧ out (snd (main w (start ∅)))
    = [ Display_debug "starting run";
        Display_debug "Created the '/home/user/.ansible' directory";
        Cli_construct "AdHocCLI" ["/usr/bin/ansible"; "-m"; "ping"] ].
Proof. split; reflexivity. Qed.

(** The same error raised by [run()] is translated as documented. *)
Example options_error_in_run :
  let w := Sample.world "/usr/bin/ansible" ["-m"; "ping"] (Ok Sample.quiet)
             (Sample.installed
                (fun _ => Ok (Sample.a_cli 0 (Raise (AnsibleOptionsError "bad option"))))
                (fun _ => Ok (Sample.a_cli 0 (Ok 0)))) None in
  fst (main w (start ∅)) = Exit 5
  ∧ out (snd (main w (start ∅)))
    = [ Display_debug "starting run";
        Display_debug "Created the '/home/user/.ansible' directory";
        Cli_construct "AdHocCLI" ["/usr/bin/ansible"; "-m"; "ping"];
        Cli_run; Parser_print_help;
        Display_error "bad option" (Some false) ].
Proof. split; reflexivity. Qed.

(** ** An unknown alias *)

(** The error of an unknown alias is translated into exit code 1, its
    message going to the error stream. *)
Lemma unknown_alias_exit_1 w C u s t :
  import_constants w = Ok C →
  initialize_locale w = Ok u →
  alias_target (Py.basename (sys_argv0 w)) = Ok [t] →
  t ≠ primary_name →
  ∃ s1, main w s =
    (Exit 1,
     set_out (out s1 ++ [Display_error
                           ("Unknown Ansible alias: " +:+ Py.basename (sys_argv0 w))
                           (Some false)]) s1).
Proof.
  intros Hc Hl Ht Hne.
  pose proof (resolve_alias_unknown _ _ Ht Hne) as Hr.
  destruct (body_alias_raise w C _ _ (set_cli None s) Hr) as [s1 Hb].
  exists s1. rewrite (main_dispatch w C u s Hc Hl). unfold sys_exit.
  rewrite (dispatch_raise _ _ _ _ _ _ Hb). reflexivity.
Qed.

Example unknown_alias_foo :
  let w := Sample.world "/usr/bin/foo" [] (Ok Sample.quiet) Sample.plain None in
  fst (main w (start ∅)) = Exit 1
  ∧ out (snd (main w (start ∅)))
    = [ Display_debug "starting run";
        Display_error "Unknown Ansible alias: foo" (Some false) ].
Proof. split; reflexivity. Qed.

(** ** Whole runs *)

(** Invoked as [ansible-playbook-2.9], a [run()] that raises a parser error
    gives exit code 4 and the text of the failure on the error stream. *)
Example parser_error_exit_4 :
  let w := Sample.world "/usr/bin/ansible-playbook-2.9" ["site.yml"]
             (Ok Sample.quiet)
             (Sample.installed
                (fun _ => Ok (Sample.a_cli 0 (Ok 0)))
                (fun _ => Ok (Sample.a_cli 0 (Raise (AnsibleParserError "bad yaml")))))
             None in
  fst (script w (start ∅)) = Exit 4
  ∧ Display_error "bad yaml" (Some false) ∈ out (snd (script w (start ∅))).
Proof. split; [reflexivity|]. vm_compute. set_solver. Qed.

(** Invoked under the primary name, a default implementation that returns
    0 gives exit code 0. *)
Example primary_name_exit_0 :
  let w := Sample.world "/usr/bin/ansible" ["-m"; "ping"; "all"]
             (Ok Sample.quiet) Sample.plain None in
  fst (script w (start ∅)) = Exit 0.
Proof. reflexivity. Qed.

(** An interrupt by the operator gives exit code 99. *)
Example interrupt_exit_99 :
  let w := Sample.world "/usr/bin/ansible" []
             (Ok Sample.quiet)
             (Sample.installed
                (fun _ => Ok (Sample.a_cli 0 (Raise KeyboardInterrupt)))
                (fun _ => Ok (Sample.a_cli 0 (Ok 0))))
             None in
  fst (script w (start ∅)) = Exit 99.
Proof. reflexivity. Qed.

(** * Further properties *)

(** ** The shape of the supervised block *)

Lemma bind_run {A B} (m : M A) (f : A → M B) s :
  (m ≫= f) s =
  match m s with
  | (Ok a, s1) => f a s1
  | (Raise e, s1) => (Raise e, s1)
  end.
Proof. reflexivity. Qed.

(** The loader neither reads nor writes the state. *)
Lemma load_pure w me sub myclass s s0 :
  load w me sub myclass s = (fst (load w me sub myclass s0), s).
Proof.
  unfold load, try_except. exec.
  destruct (import_module w _ _) as [m|e]; exec.
  - destruct (getattr_class _ m myclass) as [c|e]; exec; [reflexivity|].
    destruct e; try reflexivity.
    destruct (Py.endswith _ _); reflexivity.
  - destruct e; try reflexivity.
    destruct (Py.endswith _ _); reflexivity.
Qed.

(** The preparation of the state directory returns, emits nothing that
    enters the sub-command, and at most adds the directory. *)
Lemma ensure_state_directory_shape w path s :
  ∃ d evs,
    ensure_state_directory w path s
    = (Ok tt, set_out (out s ++ evs) (set_dirs d s))
    ∧ (d = dirs s ∨ d = {[path]} ∪ dirs s)
    ∧ List.filter invokes evs = [].
Proof.
  destruct (decide (path ∈ dirs s)) as [Hin | Hout].
  - exists (dirs s), []. rewrite ensure_state_directory_exists by done.
    split; [|by split; [left|]]. rewrite app_nil_r. by destruct s.
  - destruct (mkdir_error w path) as [[errno text]|] eqn:He.
    + eexists (dirs s), _.
      rewrite (ensure_state_directory_fails _ _ _ _ _ Hout He).
      split; [by destruct s|]. split; [by left|].
      by destruct (errno =? EEXIST).
    + eexists _, _. rewrite (ensure_state_directory_creates _ _ _ Hout He).
      split; [reflexivity|]. split; [by right | reflexivity].
Qed.

(** Decoding, as one function on the argument vector. *)
Lemma for_each_decode w l s :
  for_each (decode_arg w) l s =
  (match mapM (to_text_strict w) l with
   | Some ts => Ok ts
   | None => Raise (UnicodeError "'utf-8' codec can't decode")
   end, s).
Proof.
  induction l as [|a l IH]; [reflexivity|].
  rewrite for_each_cons, decode_arg_run. simpl mapM.
  destruct (to_text_strict w a) as [t|]; [|reflexivity].
  rewrite IH. simpl. destruct (mapM _ l); reflexivity.
Qed.

(** Lines 121-129 on a given state. *)
Lemma encode_and_run_unfold w myclass mycli s :
  encode_and_run w myclass mycli s =
  match mapM (to_text_strict w) (sys_argv w) with
  | None =>
      (Ok 6, set_out (out s ++ encoding_report w
                        (UnicodeError "'utf-8' codec can't decode")) s)
  | Some args =>
      match mycli args with
      | Raise e => (Raise e, set_out (out s ++ [Cli_construct myclass args]) s)
      | Ok c =>
          (fst (cli_run c (CLIARGS s)),
           {| CLIARGS := snd (cli_run c (CLIARGS s));
              dirs := dirs s;
              out := out s ++ [Cli_construct myclass args; Cli_run];
              cli := Some c |})
      end
  end.
Proof.
  unfold encode_and_run, try_except_else. rewrite for_each_decode.
  destruct (mapM _ _) as [args|].
  - unfold construct, run, call_run. exec.
    destruct (mycli args) as [c|e]; exec; [|reflexivity].
    destruct (cli_run c (CLIARGS s)) as [r a]. simpl.
    rewrite <- app_assoc. reflexivity.
  - exec. unfold encoding_report. rewrite <- app_assoc. reflexivity.
Qed.

(** Lines 75-129 on a given state. *)
Lemma body_unfold w C me s :
  body w C me s =
  let s0 := set_out (out s ++ opening_events w C) s in
  match resolve_alias me with
  | Raise e => (Raise e, s0)
  | Ok (sub, myclass) =>
      match load w me sub myclass s0 with
      | (Raise e, s1) => (Raise e, s1)
      | (Ok mycli, s1) =>
          match ensure_state_directory w (b_ansible_dir w) s1 with
          | (Raise e, s2) => (Raise e, s2)
          | (Ok _, s2) => encode_and_run w myclass mycli s2
          end
      end
  end.
Proof.
  unfold body, opening_events.
  destruct (CONTROLLER_PYTHON_WARNING C && negb (_PY38_MIN w));
    destruct (resolve_alias me) as [[sub myclass]|e]; exec;
    rewrite <- ?app_assoc, ?app_nil_l; simpl; try reflexivity.
  all: match goal with |- context [load ?w ?me ?sub ?c ?s] =>
         destruct (load w me sub c s) as [[mycli|e] s1] end;
       [|reflexivity].
  all: destruct (ensure_state_directory _ _ _) as [[[]|e] s2]; reflexivity.
Qed.

(** ** The table of exit codes *)

Section Supervised.
Context (w : World) (C : Config) (u : unit) (s : state).
Hypothesis Hconstants : import_constants w = Ok C.
Hypothesis Hlocale : initialize_locale w = Ok u.

Lemma main_raise e s1 :
  body w C (Py.basename (sys_argv0 w)) (set_cli None s) = (Raise e, s1) →
  main w s = sys_exit (translate w C e) s1.
Proof.
  intros Hb. rewrite (main_dispatch w C u s Hconstants Hlocale).
  unfold sys_exit. rewrite (dispatch_raise _ _ _ _ _ _ Hb). reflexivity.
Qed.

Lemma main_return code s1 :
  body w C (Py.basename (sys_argv0 w)) (set_cli None s) = (Ok code, s1) →
  main w s = (Exit code, s1).
Proof.
  intros Hb. rewrite (main_dispatch w C u s Hconstants Hlocale).
  unfold sys_exit. rewrite (dispatch_return _ _ _ _ _ _ Hb). reflexivity.
Qed.

(** X1.  An [AnsibleError] that leaves the supervised block and is not an
    error of options ends the process with exit code 4 when it is a parser
    error and with exit code 1 otherwise; its text goes to the error stream
    and nothing else is emitted. *)
Theorem ansible_error_exit_code e s1 :
  body w C (Py.basename (sys_argv0 w)) (set_cli None s) = (Raise e, s1) →
  is_AnsibleError e = true →
  is_AnsibleOptionsError e = false →
  main w s =
  (Exit (if is_AnsibleParserError e then 4 else 1),
   set_out (out s1 ++ [Display_error (exn_text e) (Some false)]) s1).
Proof.
  intros Hb He Ho. rewrite (main_raise e s1 Hb).
  destruct e; try discriminate He; try discriminate Ho; reflexivity.
Qed.

(** X2.  An interrupt by the operator anywhere in the supervised block ends
    the process with exit code 99; one line goes to the error stream, and
    no traceback is emitted. *)
Theorem keyboard_interrupt_exit_99 s1 :
  body w C (Py.basename (sys_argv0 w)) (set_cli None s)
  = (Raise KeyboardInterrupt, s1) →
  main w s =
  (Exit 99,
   set_out (out s1 ++ [Display_error "User interrupted execution" None]) s1).
Proof. intros Hb. rewrite (main_raise _ s1 Hb). reflexivity. Qed.

(** X3.  A [SystemExit] raised inside the supervised block (a sub-command
    that calls [sys.exit]) is caught by no clause: it leaves the stub as it
    is, with its own status, and the stub emits nothing more. *)
Theorem system_exit_passes_through arg s1 :
  body w C (Py.basename (sys_argv0 w)) (set_cli None s)
  = (Raise (SystemExit arg), s1) →
  main w s = (Uncaught (SystemExit arg), s1).
Proof. intros Hb. rewrite (main_raise _ s1 Hb). reflexivity. Qed.

(** X4.  An error of options that leaves the supervised block: when [cli]
    is assigned and its parser is set, help is printed, then the message,
    and the exit code is 5; when [cli] is still [None], or its parser is
    not set, the handler fails with an [AttributeError] that nothing
    catches, and neither help nor message is emitted. *)
Theorem options_error_translation msg s1 :
  body w C (Py.basename (sys_argv0 w)) (set_cli None s)
  = (Raise (AnsibleOptionsError msg), s1) →
  main w s =
  match cli s1 with
  | Some c =>
      if cli_has_parser c then
        (Exit 5,
         set_out (out s1 ++ [Parser_print_help; Display_error msg (Some false)])
           s1)
      else
        (Uncaught (AttributeError "'NoneType' object has no attribute 'print_help'"),
         s1)
  | None =>
      (Uncaught (AttributeError "'NoneType' object has no attribute 'parser'"),
       s1)
  end.
Proof.
  intros Hb. rewrite (main_raise _ s1 Hb).
  destruct s1 as [a d evs [c|]]; unfold translate, print_help, sys_exit; exec;
    [|reflexivity].
  destruct (cli_has_parser c); exec; [|reflexivity].
  rewrite <- app_assoc. reflexivity.
Qed.

(** X5.  With the debug flag unset, a failure of no recognised kind met
    while the options are not parsed yet, or at a verbosity above 2, ends
    the process with exit code 250 and the traceback is displayed, not only
    logged; a wrapped failure is named first, and its message is repeated
    only when it differs from the text of the failure. *)
Theorem unclassified_failure_loud e s1 :
  body w C (Py.basename (sys_argv0 w)) (set_cli None s) = (Raise e, s1) →
  unclassified e = true →
  DEFAULT_DEBUG C = false →
  (CLIARGS s1 = None ∨ ∃ o, CLIARGS s1 = Some o ∧ 2 < verbosity o) →
  main w s = (Exit 250, set_out (out s1 ++ loud_report w e) s1).
Proof.
  intros Hb He Hd Hv. rewrite (main_raise e s1 Hb).
  rewrite (translate_unclassified _ _ _ He).
  unfold sys_exit, unexpected. rewrite Hd.
  destruct s1 as [a d evs c]. simpl in Hv.
  destruct Hv as [-> | (o & -> & Ho)]; exec;
    [|apply Z.ltb_lt in Ho; rewrite Ho; exec].
  all: unfold loud_report; destruct (exn_orig_exc e) as [[ty why]|]; exec;
    [destruct (negb (String.eqb (exn_text e) why)); exec|];
    rewrite <- !app_assoc; reflexivity.
Qed.

End Supervised.

Lemma ansible_error_exit_code_witness :
  let w := Sample.world "/usr/bin/ansible-playbook" ["site.yml"]
             (Ok Sample.quiet)
             (Sample.installed
                (fun _ => Ok (Sample.a_cli 0 (Ok 0)))
                (fun _ => Ok (Sample.a_cli 0 (Raise (AnsibleParserError "bad yaml")))))
             None in
  let s1 := snd (body w Sample.quiet "ansible-playbook" (set_cli None (start ∅))) in
  main w (start ∅)
  = (Exit 4, set_out (out s1 ++ [Display_error "bad yaml" (Some false)]) s1).
Proof.
  intros w s1.
  apply (ansible_error_exit_code w Sample.quiet tt (start ∅) eq_refl eq_refl
           (AnsibleParserError "bad yaml") s1); reflexivity.
Defined.

Lemma keyboard_interrupt_exit_99_witness :
  let w := Sample.world "/usr/bin/ansible" [] (Ok Sample.quiet)
             (Sample.installed
                (fun _ => Ok (Sample.a_cli 0 (Raise KeyboardInterrupt)))
                (fun _ => Ok (Sample.a_cli 0 (Ok 0))))
             None in
  let s1 := snd (body w Sample.quiet "ansible" (set_cli None (start ∅))) in
  main w (start ∅)
  = (Exit 99,
     set_out (out s1 ++ [Display_error "User interrupted execution" None]) s1).
Proof.
  intros w s1.
  apply (keyboard_interrupt_exit_99 w Sample.quiet tt (start ∅) eq_refl eq_refl
           s1); reflexivity.
Defined.

Lemma system_exit_passes_through_witness :
  let w := Sample.world "/usr/bin/ansible" ["--bogus"] (Ok Sample.quiet)
             (Sample.installed
                (fun _ => Ok (Sample.a_cli 0 (Raise (SystemExit (inl 2)))))
                (fun _ => Ok (Sample.a_cli 0 (Ok 0))))
             None in
  let s1 := snd (body w Sample.quiet "ansible" (set_cli None (start ∅))) in
  main w (start ∅) = (Uncaught (SystemExit (inl 2)), s1).
Proof.
  intros w s1.
  apply (system_exit_passes_through w Sample.quiet tt (start ∅) eq_refl eq_refl
           (inl 2) s1); reflexivity.
Defined.

Lemma options_error_translation_witness :
  let w := Sample.world "/usr/bin/ansible" ["-m"] (Ok Sample.quiet)
             (Sample.installed
                (fun _ => Ok (Sample.a_cli 0 (Raise (AnsibleOptionsError "-m needs a value"))))
                (fun _ => Ok (Sample.a_cli 0 (Ok 0))))
             None in
  let s1 := snd (body w Sample.quiet "ansible" (set_cli None (start ∅))) in
  main w (start ∅)
  = (Exit 5,
     set_out (out s1 ++ [Parser_print_help;
                         Display_error "-m needs a value" (Some false)]) s1).
Proof.
  intros w s1.
  apply (options_error_translation w Sample.quiet tt (start ∅) eq_refl eq_refl
           "-m needs a value" s1); reflexivity.
Defined.

Lemma unclassified_failure_loud_witness :
  let w := Sample.world "/usr/bin/ansible" ["-vvv"] (Ok Sample.quiet)
             (Sample.installed
                (fun _ => Ok (Sample.a_cli 3
                   (Raise (OtherException "boom" (Some ("ValueError", "cause"))))))
                (fun _ => Ok (Sample.a_cli 0 (Ok 0))))
             None in
  let e := OtherException "boom" (Some ("ValueError", "cause")) in
  let s1 := snd (body w Sample.quiet "ansible" (set_cli None (start ∅))) in
  main w (start ∅) = (Exit 250, set_out (out s1 ++ loud_report w e) s1).
Proof.
  intros w e s1.
  apply (unclassified_failure_loud w Sample.quiet tt (start ∅) eq_refl eq_refl
           e s1); [reflexivity | reflexivity | reflexivity |].
  right. exists {| verbosity := 3 |}. split; [reflexivity | simpl; lia].
Defined.

(** ** The run of the sub-command *)

(** When the alias resolves, its class is found, the arguments decode and
    the constructor returns, the block ends as [run()] does. *)
Lemma body_reaches_run w C me s sub myclass m mycli args c :
  resolve_alias me = Ok (sub, myclass) →
  import_module w ("ansible.cli." +:+ sub) [myclass] = Ok m →
  m myclass = Some mycli →
  mapM (to_text_strict w) (sys_argv w) = Some args →
  mycli args = Ok c →
  ∃ d evs,
    body w C me s =
    (fst (cli_run c (CLIARGS s)),
     {| CLIARGS := snd (cli_run c (CLIARGS s));
        dirs := d;
        out := (out s ++ opening_events w C ++ evs)
               ++ [Cli_construct myclass args; Cli_run];
        cli := Some c |})
    ∧ (d = dirs s ∨ d = {[b_ansible_dir w]} ∪ dirs s)
    ∧ List.filter invokes evs = [].
Proof.
  intros Hr Hi Hm Ha Hc. rewrite body_unfold, Hr. cbv zeta.
  rewrite (load_found _ _ _ _ _ _ _ Hi Hm).
  destruct (ensure_state_directory_shape w (b_ansible_dir w)
              (set_out (out s ++ opening_events w C) s))
    as (d & evs & -> & Hd & Hev).
  exists d, evs. rewrite encode_and_run_unfold, Ha, Hc. simpl.
  rewrite <- !app_assoc. done.
Qed.

Lemma filter_invokes_opening w C : List.filter invokes (opening_events w C) = [].
Proof.
  unfold opening_events.
  by destruct (CONTROLLER_PYTHON_WARNING C && negb (_PY38_MIN w)).
Qed.

(** X6.  When the configuration is imported, the alias resolved, its class
    found, every argument decoded and the constructor has returned, the
    exit code of the process is what [run()] returns; the constructor got
    the decoded [sys.argv], program name included, [run()] was called once
    after it, and [context.CLIARGS] is as [run()] left it. *)
Theorem run_result_is_exit_code w C u s sub myclass m mycli args c code a :
  import_constants w = Ok C →
  initialize_locale w = Ok u →
  resolve_alias (Py.basename (sys_argv0 w)) = Ok (sub, myclass) →
  import_module w ("ansible.cli." +:+ sub) [myclass] = Ok m →
  m myclass = Some mycli →
  mapM (to_text_strict w) (sys_argv w) = Some args →
  mycli args = Ok c →
  cli_run c (CLIARGS s) = (Ok code, a) →
  fst (main w s) = Exit code
  ∧ CLIARGS (snd (main w s)) = a
  ∧ cli (snd (main w s)) = Some c
  ∧ List.filter invokes (out (snd (main w s)))
    = (List.filter invokes (out s) ++ [Cli_construct myclass args; Cli_run])%list.
Proof.
  intros Hc Hl Hr Hi Hm Ha Hk Hrun.
  destruct (body_reaches_run w C _ (set_cli None s) sub myclass m mycli args c
              Hr Hi Hm Ha Hk) as (d & evs & Hb & _ & Hev).
  simpl in Hb. rewrite Hrun in Hb. simpl in Hb.
  rewrite (main_return w C u s Hc Hl _ _ Hb). simpl.
  repeat split.
  rewrite !List.filter_app, filter_invokes_opening, Hev. simpl.
  rewrite ?app_nil_r. reflexivity.
Qed.

Lemma run_result_is_exit_code_witness :
  let c := Sample.a_cli 1 (Ok 2) in
  let w := Sample.world "/usr/bin/ansible-playbook-2.9" ["-v"; "site.yml"]
             (Ok Sample.quiet)
             (Sample.installed (fun _ => Ok (Sample.a_cli 0 (Ok 0)))
                (fun _ => Ok c))
             None in
  let s' := snd (main w (start ∅)) in
  fst (main w (start ∅)) = Exit 2
  ∧ CLIARGS s' = Some {| verbosity := 1 |}
  ∧ cli s' = Some c
  ∧ List.filter invokes (out s')
    = [Cli_construct "PlaybookCLI"
         ["/usr/bin/ansible-playbook-2.9"; "-v"; "site.yml"]; Cli_run].
Proof.
  intros c w s'.
  apply (run_result_is_exit_code w Sample.quiet tt (start ∅) "playbook"
           "PlaybookCLI" (Sample.module_with "PlaybookCLI" (fun _ => Ok c))
           (fun _ => Ok c)
           ["/usr/bin/ansible-playbook-2.9"; "-v"; "site.yml"] c 2
           (Some {| verbosity := 1 |})); reflexivity.
Defined.

(** X7.  When the constructor of the sub-command raises, [run()] is not
    called and [cli] stays unassigned: the failure leaves the supervised
    block with [context.CLIARGS] untouched. *)
Theorem constructor_failure_skips_run w C me s sub myclass m mycli args e :
  resolve_alias me = Ok (sub, myclass) →
  import_module w ("ansible.cli." +:+ sub) [myclass] = Ok m →
  m myclass = Some mycli →
  mapM (to_text_strict w) (sys_argv w) = Some args →
  mycli args = Raise e →
  ∃ s1, body w C me s = (Raise e, s1)
    ∧ cli s1 = cli s
    ∧ CLIARGS s1 = CLIARGS s
    ∧ List.filter invokes (out s1)
      = (List.filter invokes (out s) ++ [Cli_construct myclass args])%list.
Proof.
  intros Hr Hi Hm Ha Hk. rewrite body_unfold, Hr. cbv zeta.
  rewrite (load_found _ _ _ _ _ _ _ Hi Hm).
  destruct (ensure_state_directory_shape w (b_ansible_dir w)
              (set_out (out s ++ opening_events w C) s))
    as (d & evs & -> & Hd & Hev).
  rewrite encode_and_run_unfold, Ha, Hk. eexists. split; [reflexivity|].
  simpl. repeat split.
  rewrite !List.filter_app, filter_invokes_opening, Hev. simpl.
  rewrite ?app_nil_r. reflexivity.
Qed.

Lemma constructor_failure_skips_run_witness :
  let w := Sample.world "/usr/bin/ansible" ["-m"; "ping"] (Ok Sample.quiet)
             (Sample.installed
                (fun _ => Raise (OtherException "no tty" None))
                (fun _ => Ok (Sample.a_cli 0 (Ok 0)))) None in
  ∃ s1, body w Sample.quiet "ansible" (start ∅)
        = (Raise (OtherException "no tty" None), s1)
    ∧ cli s1 = None
    ∧ CLIARGS s1 = None
    ∧ List.filter invokes (out s1)
      = [Cli_construct "AdHocCLI" ["/usr/bin/ansible"; "-m"; "ping"]].
Proof.
  intros w.
  apply (constructor_failure_skips_run w Sample.quiet "ansible" (start ∅)
           "adhoc" "AdHocCLI"
           (Sample.module_with "AdHocCLI"
              (fun _ => Raise (OtherException "no tty" None)))
           (fun _ => Raise (OtherException "no tty" None))
           ["/usr/bin/ansible"; "-m"; "ping"]); reflexivity.
Defined.

(** ** The exit codes of the stub *)

(** The handlers return one of the codes of the table, when they return. *)
Lemma translate_codes w C e s :
  match translate w C e s with
  | (Ok code, _) => code ∈ own_exit_codes
  | (Raise _, _) => True
  end.
Proof.
  unfold own_exit_codes.
  destruct (unclassified e) eqn:Hu.
  - rewrite (translate_unclassified _ _ _ Hu).
    destruct (DEFAULT_DEBUG C) eqn:Hd.
    + by rewrite unexpected_debug.
    + destruct (unexpected_exits w C e s Hd) as [s' ->]. set_solver.
  - destruct e; try discriminate Hu; unfold translate, print_help; exec;
      try set_solver.
    destruct (cli s) as [c|]; exec; [|done].
    destruct (cli_has_parser c); exec; [set_solver | done].
Qed.

(** The supervised block returns 6, or what [run()] returned. *)
Lemma body_codes w C me s :
  match body w C me s with
  | (Ok code, s') =>
      code = 6
      ∨ ∃ c, cli s' = Some c ∧ cli_run c (CLIARGS s) = (Ok code, CLIARGS s')
  | (Raise _, _) => True
  end.
Proof.
  rewrite body_unfold. cbv zeta.
  destruct (resolve_alias me) as [[sub myclass]|e]; [|done].
  rewrite (load_pure w me sub myclass _ s).
  destruct (fst (load w me sub myclass s)) as [mycli|e]; [|done].
  destruct (ensure_state_directory_shape w (b_ansible_dir w)
              (set_out (out s ++ opening_events w C) s))
    as (d & evs & -> & _ & _).
  rewrite encode_and_run_unfold.
  destruct (mapM (to_text_strict w) (sys_argv w)) as [args|]; [|simpl; by left].
  destruct (mycli args) as [c|e]; [|done].
  simpl. destruct (cli_run c (CLIARGS s)) as [[code|e] a] eqn:Hrun; simpl;
    [|done].
  right. exists c. done.
Qed.

(** X8.  Whenever the process ends through [sys.exit], its code is one of
    1, 4, 5, 6, 99 and 250, or it is the value that [run()] of the
    constructed sub-command returned. *)
Theorem exit_code_range w s code :
  fst (main w s) = Exit code →
  code ∈ own_exit_codes
  ∨ ∃ c, cli (snd (main w s)) = Some c
       ∧ cli_run c (CLIARGS s) = (Ok code, CLIARGS (snd (main w s))).
Proof.
  unfold main.
  destruct (import_constants w) as [C|e].
  - destruct (initialize_locale w) as [u|e]; [|discriminate].
    unfold sys_exit, dispatch, try_except.
    pose proof (body_codes w C (Py.basename (sys_argv0 w)) (set_cli None s)) as Hb.
    destruct (body _ _ _ _) as [[code'|e] s1].
    + simpl. intros [= ->]. destruct Hb as [-> | Hb]; [|by right].
      left. unfold own_exit_codes. set_solver.
    + pose proof (translate_codes w C e s1) as Ht.
      destruct (translate w C e s1) as [[code'|e'] s2]; [|discriminate].
      simpl. intros [= ->]. by left.
  - destruct (is_AnsibleOptionsError e); [|discriminate].
    simpl. intros [= <-]. left. unfold own_exit_codes. set_solver.
Qed.

Lemma exit_code_range_witness :
  let w := Sample.world "/usr/bin/ansible" ["x"] (Ok Sample.quiet)
             (Sample.installed (fun _ => Ok (Sample.a_cli 0 (Ok 3)))
                (fun _ => Ok (Sample.a_cli 0 (Ok 0)))) None in
  3 ∈ own_exit_codes
  ∨ ∃ c, cli (snd (main w (start ∅))) = Some c
       ∧ cli_run c (CLIARGS (start ∅))
         = (Ok 3, CLIARGS (snd (main w (start ∅)))).
Proof.
  intros w. apply (exit_code_range w (start ∅) 3). reflexivity.
Defined.

(** ** More on alias resolution *)

Lemma list_getitem_nat {A} (l : list A) (i : nat) x :
  l !! i = Some x → Py.list_getitem l (Z.of_nat i) = Ok x.
Proof.
  intros H. unfold Py.list_getitem, Py.index_of.
  pose proof (lookup_lt_Some _ _ _ H) as Hlt.
  assert (Hneg : (Z.of_nat i <? 0) = false) by (apply Z.ltb_ge; lia).
  assert (Hle : (Z.of_nat (length l) <=? Z.of_nat i) = false)
    by (apply Z.leb_gt; lia).
  rewrite Hneg. cbv iota. rewrite Hneg, Hle. cbv [orb]. rewrite Nat2Z.id.
  change (Some i ≫= (l !!.)) with (l !! i). rewrite H. reflexivity.
Qed.

(** The outcome of the resolution, read off the tokens that are left. *)
Lemma resolve_alias_by_tokens me target :
  alias_target me = Ok target →
  resolve_alias me =
  match target with
  | _ :: sub :: _ => Ok (sub, Py.capitalize sub +:+ "CLI")
  | [t0] =>
      if String.eqb t0 primary_name then Ok (default_alias, "AdHocCLI")
      else Raise (AnsibleError ("Unknown Ansible alias: " +:+ me))
  | [] => Raise (IndexError "list index out of range")
  end.
Proof.
  intros Ht. unfold resolve_alias. rewrite Ht.
  destruct target as [|t0 [|t1 rest]]; try reflexivity.
  pose proof (list_getitem_nat (t0 :: t1 :: rest) 1 t1 eq_refl) as H1.
  change (Z.of_nat 1) with 1 in H1.
  unfold mbind at 1, result_bind at 1.
  replace (1 <? length (t0 :: t1 :: rest))%nat with true
    by (symmetry; apply Nat.ltb_lt; simpl; lia).
  rewrite H1. reflexivity.
Qed.

(** The tokens that are left when the last one does not start with a
    digit: all of them. *)
Lemma alias_target_unversioned me (toks : list string) c r :
  Py.split "-" me = (toks ++ [String c r])%list →
  Py.isdigit c = false →
  alias_target me = Ok (toks ++ [String c r])%list.
Proof.
  intros Hs Hd. unfold alias_target. rewrite Hs, list_getitem_last, last_snoc.
  simpl. rewrite Hd. reflexivity.
Qed.

Lemma last_nonempty_split (l : list string) t :
  last l = Some t → ∃ init, l = (init ++ [t])%list.
Proof.
  intros H. destruct (decide (l = [])) as [-> | Hne]; [discriminate|].
  destruct (exists_last Hne) as (init & x & ->).
  rewrite last_snoc in H. injection H as ->. eauto.
Qed.

(** The four ways the resolution can end. *)
Lemma resolve_alias_cases me :
  leaves_nothing me
  ∨ (∃ sub, resolve_alias me = Ok (sub, Py.capitalize sub +:+ "CLI"))
  ∨ resolve_alias me = Ok (default_alias, "AdHocCLI")
  ∨ resolve_alias me = Raise (AnsibleError ("Unknown Ansible alias: " +:+ me)).
Proof.
  unfold leaves_nothing.
  destruct (last (Py.split "-" me)) as [t|] eqn:Hl.
  2:{ apply last_None in Hl. by apply split_not_nil in Hl. }
  destruct t as [|c r]; [left; left; reflexivity|].
  destruct (last_nonempty_split _ _ Hl) as [init Hs].
  destruct (Py.isdigit c) eqn:Hd.
  - rewrite (resolve_alias_by_tokens me init)
      by (by apply (alias_target_versioned me init c r)).
    destruct init as [|t0 [|t1 rest]].
    + left. right. exists c, r. done.
    + right. right. destruct (String.eqb t0 primary_name); [by left | by right].
    + right. left. by exists t1.
  - rewrite (resolve_alias_by_tokens me (init ++ [String c r]))
      by (by apply alias_target_unversioned).
    right. destruct init as [|t0 [|t1 rest]]; simpl app; cbv iota.
    + right. destruct (String.eqb (String c r) primary_name);
        [by left | by right].
    + left. by exists (String c r).
    + left. by exists t1.
Qed.

(** X10.  The resolution raises [IndexError] exactly when the last token of
    the basename is empty, or its only token starts with a digit; on every
    other basename it returns an alias with its class name, or the default
    alias, or raises the error of an unknown alias, which names the
    basename. *)
Theorem resolve_alias_index_error_iff me :
  ((∃ msg, resolve_alias me = Raise (IndexError msg)) ↔ leaves_nothing me)
  ∧ (¬ leaves_nothing me →
     (∃ sub, resolve_alias me = Ok (sub, Py.capitalize sub +:+ "CLI"))
     ∨ resolve_alias me = Ok (default_alias, "AdHocCLI")
     ∨ resolve_alias me
       = Raise (AnsibleError ("Unknown Ansible alias: " +:+ me))).
Proof.
  split.
  - split; [|apply resolve_alias_index_error].
    intros [msg H].
    destruct (resolve_alias_cases me) as [Hn | [[sub Hs] | [Hs | Hs]]];
      [exact Hn | | |]; rewrite Hs in H; discriminate H.
  - intros Hn.
    destruct (resolve_alias_cases me) as [H | H]; [done | exact H].
Qed.

Lemma resolve_alias_index_error_iff_witness :
  (∃ sub, resolve_alias "ansible-vault" = Ok (sub, Py.capitalize sub +:+ "CLI"))
  ∨ resolve_alias "ansible-vault" = Ok (default_alias, "AdHocCLI")
  ∨ resolve_alias "ansible-vault"
    = Raise (AnsibleError ("Unknown Ansible alias: " +:+ "ansible-vault")).
Proof.
  apply (proj2 (resolve_alias_index_error_iff "ansible-vault")).
  intros [H | (c & r & H & _)]; vm_compute in H; discriminate H.
Defined.

(** X11.  When the basename has three tokens or more and its last token is
    not empty, the alias is the second token: the first token is not looked
    at, and neither are the tokens after the second (so that only one
    version suffix is dropped, and [a-b-2-3] resolves to [b]). *)
Theorem alias_is_second_token (pre name rest : string) (c : ascii) (r : string) :
  Py.contains "-" pre = false →
  Py.contains "-" name = false →
  last (Py.split "-" rest) = Some (String c r) →
  alias_of (pre +:+ "-" +:+ name +:+ "-" +:+ rest) = Ok name.
Proof.
  intros Hp Hn Hl.
  destruct (last_nonempty_split _ _ Hl) as [init Hs].
  assert (Hsplit : Py.split "-" (pre +:+ "-" +:+ name +:+ "-" +:+ rest)
                   = (pre :: name :: init ++ [String c r])%list).
  { rewrite (split_app _ pre), (split_app _ name), Hs by done. reflexivity. }
  unfold alias_of.
  destruct (Py.isdigit c) eqn:Hd.
  - rewrite (resolve_alias_by_tokens _ (pre :: name :: init)).
    + reflexivity.
    + by apply (alias_target_versioned _ (pre :: name :: init) c r).
  - rewrite (resolve_alias_by_tokens _ (pre :: name :: init ++ [String c r])).
    + reflexivity.
    + by apply (alias_target_unversioned _ (pre :: name :: init) c r).
Qed.

Lemma alias_is_second_token_witness :
  alias_of "python3-playbook-2.9-3" = Ok "playbook".
Proof.
  apply (alias_is_second_token "python3" "playbook" "2.9-3" "3" "");
    reflexivity.
Defined.

(** X12.  A basename of two tokens whose second token does not start with a
    digit resolves to that token, whatever the first token is. *)
Theorem alias_of_plain_basename (pre name : string) (c : ascii) (r : string) :
  Py.contains "-" pre = false →
  Py.contains "-" name = false →
  name = String c r →
  Py.isdigit c = false →
  alias_of (pre +:+ "-" +:+ name) = Ok name.
Proof.
  intros Hp Hn -> Hd. unfold alias_of.
  rewrite (resolve_alias_by_tokens _ [pre; String c r]); [reflexivity|].
  apply (alias_target_unversioned _ [pre] c r); [|done].
  rewrite (split_app _ pre), split_one by done. reflexivity.
Qed.

Lemma alias_of_plain_basename_witness :
  alias_of "ansible-vault" = Ok "vault".
Proof.
  apply (alias_of_plain_basename "ansible" "vault" "v" "ault"); reflexivity.
Defined.

(** X13.  A basename made of one token and a version suffix resolves as
    that token does: to the default alias when the token is [ansible], and
    to the error of an unknown alias, which names the whole basename,
    otherwise. *)
Theorem resolve_alias_versioned_token (t digits : string) (d : ascii)
    (rest : string) :
  Py.contains "-" t = false →
  Py.contains "-" digits = false →
  digits = String d rest →
  Py.isdigit d = true →
  resolve_alias (t +:+ "-" +:+ digits) =
  if String.eqb t primary_name then Ok (default_alias, "AdHocCLI")
  else Raise (AnsibleError ("Unknown Ansible alias: " +:+ t +:+ "-" +:+ digits)).
Proof.
  intros Ht Hdg -> Hd.
  rewrite (resolve_alias_by_tokens _ [t]); [reflexivity|].
  apply (alias_target_versioned _ [t] d rest); [|done].
  rewrite (split_app _ t), split_one by done. reflexivity.
Qed.

Lemma resolve_alias_versioned_token_witness :
  resolve_alias "ansible-2.9" = Ok ("adhoc", "AdHocCLI").
Proof.
  apply (resolve_alias_versioned_token "ansible" "2.9" "2" ".9"); reflexivity.
Defined.

Lemma contains_app c a b :
  Py.contains c (a +:+ b) = Py.contains c a || Py.contains c b.
Proof.
  induction a as [|x a IH]; [reflexivity|].
  change (String x a +:+ b) with (String x (a +:+ b)). simpl.
  rewrite IH. by rewrite orb_assoc.
Qed.

Lemma basename_join dir name :
  Py.contains "/" name = false →
  Py.basename (dir +:+ "/" +:+ name) = name.
Proof.
  intros Hn. change ("/" +:+ name) with (String "/" name).
  induction dir as [|c dir IH].
  - change ("" +:+ String "/" name) with (String "/" name).
    simpl. rewrite Hn. reflexivity.
  - change (String c dir +:+ String "/" name)
      with (String c (dir +:+ String "/" name)).
    simpl. rewrite contains_app. simpl. rewrite orb_true_r. exact IH.
Qed.

(** X14.  The directory through which the stub is invoked plays no part:
    the alias is resolved from what follows the last slash of [argv[0]]. *)
Theorem alias_ignores_directory dir name :
  Py.contains "/" name = false →
  resolve_alias (Py.basename (dir +:+ "/" +:+ name)) = resolve_alias name.
Proof. intros Hn. by rewrite basename_join. Qed.

Lemma alias_ignores_directory_witness :
  resolve_alias (Py.basename "/opt/venv/bin/ansible-playbook")
  = resolve_alias "ansible-playbook".
Proof.
  apply (alias_ignores_directory "/opt/venv/bin" "ansible-playbook").
  reflexivity.
Defined.

(** ** More on the loader *)

(** The handlers only emit: they leave the directories, [cli] and
    [context.CLIARGS] as they are. *)
Lemma unexpected_frame w C e s :
  dirs (snd (unexpected w C e s)) = dirs s
  ∧ CLIARGS (snd (unexpected w C e s)) = CLIARGS s
  ∧ cli (snd (unexpected w C e s)) = cli s.
Proof.
  unfold unexpected. destruct (DEFAULT_DEBUG C); [done|].
  destruct s as [[o|] d evs c]; exec.
  - destruct (2 <? verbosity o); exec; [|done].
    destruct (exn_orig_exc e) as [[ty why]|]; exec; [|done].
    destruct (negb (String.eqb (exn_text e) why)); exec; done.
  - destruct (exn_orig_exc e) as [[ty why]|]; exec; [|done].
    destruct (negb (String.eqb (exn_text e) why)); exec; done.
Qed.

Lemma translate_frame w C e s :
  dirs (snd (translate w C e s)) = dirs s
  ∧ CLIARGS (snd (translate w C e s)) = CLIARGS s
  ∧ cli (snd (translate w C e s)) = cli s.
Proof.
  destruct (unclassified e) eqn:Hu.
  - rewrite (translate_unclassified _ _ _ Hu). apply unexpected_frame.
  - destruct e; try discriminate Hu; unfold translate, print_help; exec;
      try done.
    destruct (cli s) as [c|] eqn:Hc; exec; [|done].
    destruct (cli_has_parser c); exec; done.
Qed.

(** X15.  When the import of the module of the alias fails, the loader
    turns the failure into the error of a sub-program that is not
    implemented only if it is an [ImportError] whose message ends with a
    blank followed by the alias; an [ImportError] with any other message,
    and any failure that is not an [ImportError], is handed on unchanged;
    an [ImportError] raised without a message makes the handler itself
    fail with an [AttributeError], since [msg] is [None].  The state is
    not touched. *)
Theorem load_failure_discrimination w me sub myclass e s :
  import_module w ("ansible.cli." +:+ sub) [myclass] = Raise e →
  load w me sub myclass s =
  (Raise match e with
         | ImportError msg =>
             if Py.endswith msg (" " +:+ sub)
             then AnsibleError ("Ansible sub-program not implemented: " +:+ me)
             else e
         | BareImportError =>
             AttributeError "'NoneType' object has no attribute 'endswith'"
         | _ => e
         end, s).
Proof.
  intros H. unfold load, try_except. exec. rewrite H. exec.
  destruct e; try reflexivity.
  destruct (Py.endswith msg (" " +:+ sub)); reflexivity.
Qed.

Lemma load_failure_discrimination_witness :
  let w := Sample.world "/usr/bin/ansible-foo" [] (Ok Sample.quiet)
             (fun _ _ => Raise (ImportError "No module named foo")) None in
  load w "ansible-foo" "foo" "FooCLI" (start ∅)
  = (Raise (AnsibleError "Ansible sub-program not implemented: ansible-foo"),
     start ∅).
Proof.
  intros w.
  apply (load_failure_discrimination w "ansible-foo" "foo" "FooCLI"
           (ImportError "No module named foo") (start ∅)).
  reflexivity.
Defined.

(** What the block gives when the loader fails. *)
Lemma body_load_raise w C me s sub myclass e :
  resolve_alias me = Ok (sub, myclass) →
  fst (load w me sub myclass s) = Raise e →
  body w C me s = (Raise e, set_out (out s ++ opening_events w C) s).
Proof.
  intros Hr Hl. rewrite body_unfold, Hr. cbv zeta.
  rewrite (load_pure w me sub myclass _ s), Hl. reflexivity.
Qed.

(** X16.  Invoked under an alias whose import fails with a message that
    ends with a blank and the alias (the wording of Python 2, [No module
    named foo]), the process ends with exit code 1 and tells that the
    sub-program is not implemented, naming the basename; nothing else
    happens after the debug line: no directory is created, no argument is
    decoded, no sub-command is constructed. *)
Theorem not_implemented_exit_1 w C u s sub myclass msg :
  import_constants w = Ok C →
  initialize_locale w = Ok u →
  resolve_alias (Py.basename (sys_argv0 w)) = Ok (sub, myclass) →
  import_module w ("ansible.cli." +:+ sub) [myclass] = Raise (ImportError msg) →
  Py.endswith msg (" " +:+ sub) = true →
  main w s =
  (Exit 1,
   set_out (out s ++ opening_events w C
            ++ [Display_error
                  ("Ansible sub-program not implemented: "
                   +:+ Py.basename (sys_argv0 w))
                  (Some false)])
     (set_cli None s)).
Proof.
  intros Hc Hl Hr Hi He.
  pose proof (load_import_error w (Py.basename (sys_argv0 w)) sub
                myclass msg (set_cli None s) Hi) as Hload.
  rewrite He in Hload.
  rewrite (main_raise w C u s Hc Hl _ _
             (body_load_raise w C _ _ sub myclass _ Hr (f_equal fst Hload))).
  unfold sys_exit, translate. exec. rewrite <- app_assoc. reflexivity.
Qed.

Lemma not_implemented_exit_1_witness :
  let w := Sample.world "/usr/bin/ansible-foo" [] (Ok Sample.quiet)
             (fun _ _ => Raise (ImportError "No module named foo")) None in
  main w (start ∅) =
  (Exit 1,
   set_out [Display_debug "starting run";
            Display_error "Ansible sub-program not implemented: ansible-foo"
              (Some false)]
     (start ∅)).
Proof.
  intros w.
  apply (not_implemented_exit_1 w Sample.quiet tt (start ∅) "foo" "FooCLI"
           "No module named foo"); reflexivity.
Defined.

(** X17.  When the module of the alias is imported but holds no class of
    the expected name (as for [ansible-adhoc], which asks for [AdhocCLI]
    where the module defines [AdHocCLI]), the [AttributeError] is of no
    recognised kind: with the debug flag unset the process ends with exit
    code 250, and no directory has been created. *)
Theorem missing_class_exit_250 w C u s sub myclass m :
  import_constants w = Ok C →
  initialize_locale w = Ok u →
  DEFAULT_DEBUG C = false →
  resolve_alias (Py.basename (sys_argv0 w)) = Ok (sub, myclass) →
  import_module w ("ansible.cli." +:+ sub) [myclass] = Ok m →
  m myclass = None →
  fst (main w s) = Exit 250 ∧ dirs (snd (main w s)) = dirs s.
Proof.
  intros Hc Hl Hd Hr Hi Hm.
  assert (Hload : fst (load w (Py.basename (sys_argv0 w)) sub myclass
                         (set_cli None s))
                  = Raise (AttributeError
                      ("module '" +:+ ("ansible.cli." +:+ sub)
                       +:+ "' has no attribute '" +:+ myclass +:+ "'"))).
  { unfold load, try_except, getattr_class. exec. rewrite Hi. exec.
    rewrite Hm. reflexivity. }
  rewrite (main_raise w C u s Hc Hl _ _
             (body_load_raise w C _ _ sub myclass _ Hr Hload)).
  rewrite translate_unclassified by done. unfold sys_exit.
  pose proof (unexpected_frame w C
                (AttributeError ("module '" +:+ ("ansible.cli." +:+ sub)
                   +:+ "' has no attribute '" +:+ myclass +:+ "'"))
                (set_out (out (set_cli None s) ++ opening_events w C)
                   (set_cli None s))) as (Hdirs & _ & _).
  destruct (unexpected_exits w C
              (AttributeError ("module '" +:+ ("ansible.cli." +:+ sub)
                 +:+ "' has no attribute '" +:+ myclass +:+ "'"))
              (set_out (out (set_cli None s) ++ opening_events w C)
                 (set_cli None s)) Hd) as [s2 Hs2].
  rewrite Hs2 in *. done.
Qed.

Lemma missing_class_exit_250_witness :
  let w := Sample.world "/usr/bin/ansible-adhoc" [] (Ok Sample.quiet)
             Sample.plain None in
  fst (main w (start ∅)) = Exit 250 ∧ dirs (snd (main w (start ∅))) = ∅.
Proof.
  intros w.
  apply (missing_class_exit_250 w Sample.quiet tt (start ∅) "adhoc" "AdhocCLI"
           (Sample.module_with "AdHocCLI" (fun _ => Ok (Sample.a_cli 0 (Ok 0)))));
    reflexivity.
Defined.

(** X18.  On Python 3 the import of a module that does not exist is never
    turned into the error of a sub-program that is not implemented,
    whatever the alias: the [ImportError] leaves the loader as it is; with
    the debug flag set it leaves the process uncaught, and with the flag
    unset the process ends with exit code 250. *)
Theorem missing_module_not_translated w C u s sub myclass :
  import_constants w = Ok C →
  initialize_locale w = Ok u →
  resolve_alias (Py.basename (sys_argv0 w)) = Ok (sub, myclass) →
  import_module w ("ansible.cli." +:+ sub) [myclass]
  = Raise (Py.module_not_found ("ansible.cli." +:+ sub)) →
  fst (main w s) =
  if DEFAULT_DEBUG C
  then Uncaught (Py.module_not_found ("ansible.cli." +:+ sub))
  else Exit 250.
Proof.
  intros Hc Hl Hr Hi.
  pose proof (load_module_not_found w (Py.basename (sys_argv0 w)) sub myclass
                (set_cli None s) Hi) as Hload.
  rewrite (main_raise w C u s Hc Hl _ _
             (body_load_raise w C _ _ sub myclass _ Hr (f_equal fst Hload))).
  rewrite translate_unclassified by done. unfold sys_exit.
  destruct (DEFAULT_DEBUG C) eqn:Hd.
  - by rewrite unexpected_debug.
  - match goal with |- context [unexpected ?w ?C ?e ?s] =>
      destruct (unexpected_exits w C e s Hd) as [s2 ->] end.
    reflexivity.
Qed.

Lemma missing_module_not_translated_witness :
  let w := Sample.world "/usr/bin/ansible-inventory" [] (Ok Sample.debugging)
             Sample.plain None in
  fst (main w (start ∅))
  = Uncaught (ImportError "No module named 'ansible.cli.inventory'").
Proof.
  intros w.
  apply (missing_module_not_translated w Sample.debugging tt (start ∅)
           "inventory" "InventoryCLI"); reflexivity.
Defined.

(** X19.  The state directory is created only once the class of the alias
    is loaded: when the alias does not resolve, or its class does not load,
    the run leaves the directories as they were. *)
Theorem no_directory_without_class w s :
  (∀ sub myclass,
     resolve_alias (Py.basename (sys_argv0 w)) = Ok (sub, myclass) →
     ∃ e, fst (load w (Py.basename (sys_argv0 w)) sub myclass (set_cli None s))
          = Raise e) →
  dirs (snd (main w s)) = dirs s.
Proof.
  intros H. unfold main.
  destruct (import_constants w) as [C|e0]; [|by destruct (is_AnsibleOptionsError e0)].
  destruct (initialize_locale w) as [u|e0]; [|done].
  unfold sys_exit, dispatch, try_except.
  assert (∃ e, body w C (Py.basename (sys_argv0 w)) (set_cli None s)
               = (Raise e, set_out (out (set_cli None s) ++ opening_events w C)
                             (set_cli None s))) as [e ->].
  { destruct (resolve_alias (Py.basename (sys_argv0 w))) as [[sub myclass]|e]
      eqn:Hr.
    - destruct (H sub myclass eq_refl) as [e He]. exists e.
      by apply (body_load_raise w C _ _ sub myclass).
    - exists e. rewrite body_unfold, Hr. reflexivity. }
  pose proof (translate_frame w C e
                (set_out (out (set_cli None s) ++ opening_events w C)
                   (set_cli None s))) as (Hd & _ & _).
  destruct (translate w C e _) as [[code|e'] s2]; exact Hd.
Qed.

Lemma no_directory_without_class_witness :
  let w := Sample.world "/usr/bin/foo" [] (Ok Sample.quiet)
             Sample.plain None in
  dirs (snd (main w (start ∅))) = ∅.
Proof.
  intros w. apply (no_directory_without_class w (start ∅)).
  intros sub myclass H. vm_compute in H. discriminate H.
Defined.

(** ** The version of the interpreter *)

Lemma pair_geb_spec (a b c d : Z) :
  pair_geb (a, b) (c, d) = true ↔ c < a ∨ (a = c ∧ d <= b).
Proof.
  unfold pair_geb. simpl.
  rewrite orb_true_iff, andb_true_iff, Z.ltb_lt, Z.eqb_eq, Z.leb_le. tauto.
Qed.



(** ** What is emitted first *)

Lemma body_opening w C me s :
  ∃ evs, out (snd (body w C me s)) = (out s ++ opening_events w C ++ evs)%list.
Proof.
  rewrite body_unfold. cbv zeta.
  destruct (resolve_alias me) as [[sub myclass]|e].
  2:{ exists []. simpl. by rewrite app_nil_r. }
  rewrite (load_pure w me sub myclass _ s).
  destruct (fst (load w me sub myclass s)) as [mycli|e].
  2:{ exists []. simpl. by rewrite app_nil_r. }
  destruct (ensure_state_directory_shape w (b_ansible_dir w)
              (set_out (out s ++ opening_events w C) s))
    as (d & evs & -> & _ & _).
  rewrite encode_and_run_unfold.
  destruct (mapM (to_text_strict w) (sys_argv w)) as [args|].
  - destruct (mycli args) as [c|e]; eexists; simpl;
      rewrite <- !app_assoc; reflexivity.
  - eexists. simpl. rewrite <- !app_assoc. reflexivity.
Qed.

(** X21.  Whatever happens in the supervised block, what it emits starts
    with the debug line [starting run], preceded by the note that Python
    3.8 will be required exactly when the configuration asks for the
    warning and the interpreter is older than 3.8. *)
Theorem deprecation_note_first w C me s major minor :
  sys_version_info w = (major, minor) →
  ∃ evs,
    out (snd (body w C me s)) =
    (out s
     ++ (if decide (CONTROLLER_PYTHON_WARNING C = true
                    ∧ (major < 3 ∨ (major = 3 ∧ minor < 8)))
         then [Display_deprecated
                 ("Ansible will require Python 3.8 or newer on the controller starting with Ansible 2.12. Current version: "
                  +:+ version_line w)
                 "2.12" "ansible.builtin"]
         else [])
     ++ Display_debug "starting run" :: evs)%list.
Proof.
  intros Hv. destruct (body_opening w C me s) as [evs ->]. exists evs.
  f_equal. unfold opening_events, _PY38_MIN. rewrite Hv.
  rewrite <- app_assoc. f_equal.
  destruct (pair_geb (major, minor) (3, 8)) eqn:H8.
  - apply pair_geb_spec in H8. rewrite andb_false_r.
    rewrite decide_False by lia. reflexivity.
  - apply not_true_iff_false in H8. rewrite pair_geb_spec in H8.
    rewrite andb_true_r.
    destruct (CONTROLLER_PYTHON_WARNING C).
    + rewrite decide_True by (split; [done | lia]). reflexivity.
    + rewrite decide_False by (intros [? _]; done). reflexivity.
Qed.

Lemma deprecation_note_first_witness :
  let w := {| sys_version_info := (3, 6);
              sys_version := "3.6.9 (default)";
              sys_argv0 := "/usr/bin/ansible";
              sys_argv_rest := [];
              import_constants :=
                Ok {| DEFAULT_DEBUG := false; CONTROLLER_PYTHON_WARNING := true |};
              initialize_locale := Ok tt;
              import_module := Sample.plain;
              b_ansible_dir := "/home/user/.ansible";
              mkdir_error := fun _ => None;
              to_text_strict := Sample.decode;
              to_text_replace := fun b => b;
              format_exc := exn_text |} in
  let C := {| DEFAULT_DEBUG := false; CONTROLLER_PYTHON_WARNING := true |} in
  ∃ evs,
    out (snd (body w C "ansible" (start ∅))) =
    ([] ++ [Display_deprecated
        "Ansible will require Python 3.8 or newer on the controller starting with Ansible 2.12. Current version: 3.6.9 (default)"
        "2.12" "ansible.builtin"]
     ++ Display_debug "starting run" :: evs)%list.
Proof.
  intros w C.
  apply (deprecation_note_first w C "ansible" (start ∅) 3 6 eq_refl).
Defined.

(** ** One construction, one run *)

Lemma body_invocations w C me s :
  ∃ l, List.filter invokes (out (snd (body w C me s)))
       = (List.filter invokes (out s) ++ l)%list
    ∧ (l = []
       ∨ ∃ myclass args,
           mapM (to_text_strict w) (sys_argv w) = Some args
           ∧ (l = [Cli_construct myclass args]
              ∨ l = [Cli_construct myclass args; Cli_run])).
Proof.
  rewrite body_unfold. cbv zeta.
  assert (Hopen : List.filter invokes (out s ++ opening_events w C)
                  = (List.filter invokes (out s) ++ [])%list).
  { by rewrite List.filter_app, filter_invokes_opening. }
  destruct (resolve_alias me) as [[sub myclass]|e];
    [|exists []; split; [exact Hopen | by left]].
  rewrite (load_pure w me sub myclass _ s).
  destruct (fst (load w me sub myclass s)) as [mycli|e];
    [|exists []; split; [exact Hopen | by left]].
  destruct (ensure_state_directory_shape w (b_ansible_dir w)
              (set_out (out s ++ opening_events w C) s))
    as (d & evs & -> & _ & Hev).
  rewrite encode_and_run_unfold.
  destruct (mapM (to_text_strict w) (sys_argv w)) as [args|] eqn:Ha.
  - destruct (mycli args) as [c|e];
      [exists [Cli_construct myclass args; Cli_run]
      |exists [Cli_construct myclass args]];
      simpl;
      (split;
       [rewrite !List.filter_app, filter_invokes_opening, Hev; simpl;
        rewrite ?app_nil_r; reflexivity
       |right; exists myclass, args; split; [reflexivity|]; auto]).
  - exists []. simpl. split; [|by left].
    rewrite !List.filter_app, filter_invokes_opening, Hev. simpl.
    rewrite ?app_nil_r. reflexivity.
Qed.

(** X22.  A run of the stub enters the sub-command at most once: what it
    adds to the calls of the constructor and of [run()] is nothing, or one
    construction on the decoded [sys.argv], or that construction followed
    by one [run()]; [run()] is never called without the construction, and
    nothing is constructed when an argument does not decode. *)
Theorem single_invocation w s :
  ∃ l, List.filter invokes (out (snd (main w s)))
       = (List.filter invokes (out s) ++ l)%list
    ∧ (l = []
       ∨ ∃ myclass args,
           mapM (to_text_strict w) (sys_argv w) = Some args
           ∧ (l = [Cli_construct myclass args]
              ∨ l = [Cli_construct myclass args; Cli_run])).
Proof.
  unfold main.
  destruct (import_constants w) as [C|e].
  - destruct (initialize_locale w) as [u|e].
    2:{ exists []. split; [by rewrite app_nil_r | by left]. }
    unfold sys_exit, dispatch, try_except.
    destruct (body_invocations w C (Py.basename (sys_argv0 w)) (set_cli None s))
      as (l & Hl & Hshape).
    exists l. split; [|exact Hshape].
    destruct (body _ _ _ _) as [[code|e] s1]; [exact Hl|].
    pose proof (silent_translate w C e s1) as Ht.
    destruct (translate w C e s1) as [[code|e'] s2]; simpl in *;
      by rewrite Ht.
  - exists []. split; [|by left].
    destruct (is_AnsibleOptionsError e); simpl;
      rewrite ?List.filter_app; simpl; by rewrite ?app_nil_r.
Qed.

(** ** Arguments on Python 3 *)

Lemma mapM_decode (l : list string) : mapM Sample.decode l = Some l.
Proof.
  induction l as [|a l IH]; [reflexivity|].
  simpl. rewrite IH. reflexivity.
Qed.

(** C2.  On Python 3 [to_text] returns every element of [sys.argv] as it
    is, whatever it holds (a byte of the command line that is not UTF-8
    arrives as a lone surrogate inside a [str]): lines 123-126 are never
    entered.  Whatever the arguments are, the sub-command is constructed on
    them and run, and the exit code is what [run()] returns, not 6. *)
Theorem undecodable_argument_is_run (rest : list string) :
  let w := Sample.world "/usr/bin/ansible-playbook" rest (Ok Sample.quiet)
             Sample.plain None in
  fst (main w (start ∅)) = Exit 0
  ∧ List.filter invokes (out (snd (main w (start ∅))))
    = [ Cli_construct "PlaybookCLI" ("/usr/bin/ansible-playbook" :: rest);
        Cli_run ].
Proof.
  intros w.
  destruct (body_reaches_run w Sample.quiet "ansible-playbook"
              (set_cli None (start ∅)) "playbook" "PlaybookCLI"
              (Sample.module_with "PlaybookCLI"
                 (fun _ => Ok (Sample.a_cli 0 (Ok 0))))
              (fun _ => Ok (Sample.a_cli 0 (Ok 0)))
              ("/usr/bin/ansible-playbook" :: rest)
              (Sample.a_cli 0 (Ok 0)))
    as (d & evs & Hb & _ & Hev);
    [reflexivity | reflexivity | reflexivity | apply mapM_decode | reflexivity |].
  rewrite (main_return w Sample.quiet tt (start ∅) eq_refl eq_refl _ _ Hb).
  split; [reflexivity|]. cbn [snd out].
  rewrite !List.filter_app, filter_invokes_opening, Hev. reflexivity.
Qed.

(** An [ImportError] raised without a message: the handler of lines
    102-108 fails on [msg.endswith], and the [AttributeError] ends the
    process with exit code 250. *)
Example bare_import_error_exit_250 :
  let w := Sample.world "/usr/bin/ansible-foo" [] (Ok Sample.quiet)
             (fun _ _ => Raise BareImportError) None in
  fst (main w (start ∅)) = Exit 250
  ∧ out (snd (main w (start ∅)))
    = [ Display_debug "starting run";
        Display_error
          "Unexpected Exception, this is probably a bug: 'NoneType' object has no attribute 'endswith'"
          (Some false);
        Display_display
          ("the full traceback was:" +:+ nl +:+ nl
           +:+ format_exc w
                 (AttributeError "'NoneType' object has no attribute 'endswith'"))
          (Some false) ].
Proof. split; reflexivity. Qed.
